(** * ota_task.c: start-up sequencing, Ethernet bring-up and the OTA event logger

    A shallow embedding of [source/ota_task.c].  The three functions of the
    file ([ota_task], [ethernet_connect], [ota_callback]) are written in a
    small state monad over a [world] that records every call made to code
    outside the file, the contents of the file's global variables, and the
    stores made to them.  A computation either returns, or stops: halted by
    [CY_ASSERT(0)], parked by [vTaskSuspend(NULL)], or undefined because a
    C library function was called outside its contract. *)

From Stdlib Require Import ZArith List String Ascii Bool Lia.
From ExtLib Require Import Structures.Monad.
Import ListNotations.
Import MonadNotation.

Local Open Scope string_scope.
Local Open Scope list_scope.
Local Open Scope Z_scope.
Local Open Scope monad_scope.

(** ** C strings *)

(** A [char *]: either the null pointer or a reference to an object whose
    bytes are listed up to its end. *)
Definition cptr := option (list ascii).

Definition NULL : cptr := None.

(** A string literal, or any buffer holding [s] followed by its NUL. *)
Definition str (s : string) : cptr := Some (list_ascii_of_string s ++ [zero]).

(** Number of bytes before the first NUL; [None] when the object holds no
    NUL, so that a scan would run past its end. *)
Fixpoint scan_nul (b : list ascii) : option nat :=
  match b with
  | [] => None
  | c :: r => if Ascii.eqb c zero then Some 0%nat else option_map S (scan_nul r)
  end.

(** What [strlen] yields where ISO C defines it. *)
Definition c_strlen (p : cptr) : option nat :=
  match p with
  | None => None
  | Some b => scan_nul b
  end.

(** [p] points to a NUL-terminated string. *)
Definition is_cstring (p : cptr) : bool :=
  match c_strlen p with Some _ => true | None => false end.

(** ** printf arguments and the contract of a call *)

Inductive value :=
| VInt (z : Z)
| VPtr (p : cptr).

(** What [%.*s] may read: a NUL-terminated string, or at least [n] bytes. *)
Definition readable_prefix (p : cptr) (n : Z) : bool :=
  match p with
  | None => false
  | Some b => is_cstring p || ((0 <=? n) && (n <=? Z.of_nat (List.length b)))
  end.

Inductive conv_state :=
| Text
| Pct
| PctL
| PctDot
| PctDotStar (n : Z).

(** Walks a format and its arguments: [true] when every conversion of the
    format finds an argument of its kind and every [%s] a string.  The
    conversions are those this file uses: [%d], [%ld], [%p], [%s], [%.*s]
    and [%%].  Format literals are kept as spelled in the source, escape
    sequences unexpanded. *)
Fixpoint printf_defined_from (st : conv_state) (fmt : string) (args : list value) : bool :=
  match fmt with
  | EmptyString => match st with Text => true | _ => false end
  | String c r =>
    match st with
    | Text =>
      if Ascii.eqb c "%"%char then printf_defined_from Pct r args
      else printf_defined_from Text r args
    | Pct =>
      if Ascii.eqb c "%"%char then printf_defined_from Text r args
      else if Ascii.eqb c "d"%char then
        match args with VInt _ :: a => printf_defined_from Text r a | _ => false end
      else if Ascii.eqb c "l"%char then printf_defined_from PctL r args
      else if Ascii.eqb c "p"%char then
        match args with VPtr _ :: a => printf_defined_from Text r a | _ => false end
      else if Ascii.eqb c "s"%char then
        match args with
        | VPtr p :: a => is_cstring p && printf_defined_from Text r a
        | _ => false
        end
      else if Ascii.eqb c "."%char then printf_defined_from PctDot r args
      else false
    | PctL =>
      if Ascii.eqb c "d"%char then
        match args with VInt _ :: a => printf_defined_from Text r a | _ => false end
      else false
    | PctDot =>
      if Ascii.eqb c "*"%char then
        match args with VInt n :: a => printf_defined_from (PctDotStar n) r a | _ => false end
      else false
    | PctDotStar n =>
      if Ascii.eqb c "s"%char then
        match args with
        | VPtr p :: a => readable_prefix p n && printf_defined_from Text r a
        | _ => false
        end
      else false
    end
  end.

Definition printf_defined (fmt : string) (args : list value) : bool :=
  printf_defined_from Text fmt args.

(** ** Enumerations of the OTA API named in this file *)

(** [cy_ota_cb_reason_t].  [CY_OTA_REASON_other v] stands for a value [v] of
    the underlying integer type that is none of the four enumerators. *)
Inductive cy_ota_cb_reason_t :=
| CY_OTA_REASON_STATE_CHANGE
| CY_OTA_REASON_SUCCESS
| CY_OTA_REASON_FAILURE
| CY_OTA_LAST_REASON
| CY_OTA_REASON_other (v : Z).

(** [cy_ota_agent_state_t].  [CY_OTA_STATE_other v] stands for a value that
    no case label of this file matches (an unknown or later-added state). *)
Inductive cy_ota_agent_state_t :=
| CY_OTA_STATE_NOT_INITIALIZED
| CY_OTA_STATE_EXITING
| CY_OTA_STATE_INITIALIZING
| CY_OTA_STATE_AGENT_STARTED
| CY_OTA_STATE_AGENT_WAITING
| CY_OTA_STATE_STORAGE_OPEN
| CY_OTA_STATE_STORAGE_WRITE
| CY_OTA_STATE_STORAGE_CLOSE
| CY_OTA_STATE_START_UPDATE
| CY_OTA_STATE_JOB_CONNECT
| CY_OTA_STATE_JOB_DOWNLOAD
| CY_OTA_STATE_JOB_DISCONNECT
| CY_OTA_STATE_JOB_PARSE
| CY_OTA_STATE_JOB_REDIRECT
| CY_OTA_STATE_DATA_CONNECT
| CY_OTA_STATE_DATA_DOWNLOAD
| CY_OTA_STATE_DATA_DISCONNECT
| CY_OTA_STATE_VERIFY
| CY_OTA_STATE_RESULT_REDIRECT
| CY_OTA_STATE_RESULT_CONNECT
| CY_OTA_STATE_RESULT_SEND
| CY_OTA_STATE_RESULT_RESPONSE
| CY_OTA_STATE_RESULT_DISCONNECT
| CY_OTA_STATE_OTA_COMPLETE
| CY_OTA_NUM_STATES
| CY_OTA_STATE_other (v : Z).

(** [cy_ota_callback_results_t], the four results listed in the header
    comment of [ota_callback]. *)
Inductive cy_ota_callback_results_t :=
| CY_OTA_CB_RSLT_OTA_CONTINUE
| CY_OTA_CB_RSLT_OTA_STOP
| CY_OTA_CB_RSLT_APP_SUCCESS
| CY_OTA_CB_RSLT_APP_FAILED.

(** ** The event record *)

Record cy_awsport_server_info_t := {
  host_name : cptr;
  port : Z
}.

(** The fields of [cy_ota_cb_struct_t] that this file reads.  The
    declaration of the struct is not part of the file: [file] and [json_doc]
    are only ever handed to [strlen] and [printf], so they are modelled as
    the references those functions receive. *)
Record cy_ota_cb_struct_t := {
  reason : cy_ota_cb_reason_t;
  ota_agt_state : cy_ota_agent_state_t;
  total_size : Z;
  bytes_written : Z;
  percentage : Z;
  broker_server : cy_awsport_server_info_t;
  file : cptr;
  json_doc : cptr
}.

(** ** Global variables of the file *)

Inductive gvar :=
| g_ota_context
| g_ota_network_params
| g_ota_agent_params
| g_ota_interfaces
| g_phy_callbacks.

Record cy_awsport_ssl_credentials_t := {
  root_ca : cptr;
  root_ca_size : Z;
  client_cert : cptr;
  client_cert_size : Z;
  private_key : cptr;
  private_key_size : Z
}.

Record cy_ota_http_params_t := {
  http_server : cy_awsport_server_info_t;
  http_file : cptr;
  http_credentials : cy_awsport_ssl_credentials_t
}.

Record cy_ota_network_params_t := {
  http : cy_ota_http_params_t;
  use_get_job_flow : Z;
  initial_connection : Z
}.

(** Function pointers are kept as the name of the function they designate,
    addresses of globals as the [gvar] they designate. *)
Record cy_ota_agent_params_t := {
  cb_func : string;
  cb_arg : gvar;
  reboot_upon_completion : Z;
  validate_after_reboot : Z;
  do_not_send_result : Z
}.

Record cy_ota_storage_interface_t := {
  ota_file_open : string;
  ota_file_read : string;
  ota_file_write : string;
  ota_file_close : string;
  ota_file_verify : string;
  ota_file_validate : string;
  ota_file_get_app_info : string
}.

Record globals := {
  ota_context : Z;
  ota_network_params : cy_ota_network_params_t;
  ota_agent_params : cy_ota_agent_params_t;
  ota_interfaces : cy_ota_storage_interface_t
}.

(** ** Calls that leave the file *)

Inductive call :=
| call_printf (fmt : string) (args : list value)
| call_strlen (p : cptr)
| call_print_heap_usage (msg : string)
| call_cy_ota_get_state_string (st : cy_ota_agent_state_t)
| call_cy_ota_get_last_error
| call_cy_ota_get_error_string (err : Z)
| call_cy_ecm_init
| call_cy_ecm_ethif_init (iface : Z) (phy : gvar)
| call_cy_ecm_connect (handle : Z)
| call_vTaskDelay (ticks : Z)
| call_vTaskSuspend_NULL
| call_cy_ota_storage_init
| call_cy_ota_storage_image_validate (app_id : Z)
| call_cy_awsport_network_init
| call_cy_ota_agent_start (network_params agent_params storage_interfaces ctx_ptr : gvar)
| call_CY_ASSERT (x : Z).

(** ** The world threaded through the code *)

Record world := {
  trace : list call;          (* calls made so far, oldest first *)
  ecm_connects : nat;         (* how many times cy_ecm_connect was called *)
  mem : globals;              (* contents of the globals *)
  writes : list gvar          (* globals stored to so far, oldest first *)
}.

Definition record_call (c : call) (w : world) : world :=
  {| trace := trace w ++ [c]; ecm_connects := ecm_connects w;
     mem := mem w; writes := writes w |}.

Definition count_connect (w : world) : world :=
  {| trace := trace w; ecm_connects := S (ecm_connects w);
     mem := mem w; writes := writes w |}.

(** A store of [h] through a [cy_ota_context_ptr *] that designates [g]. *)
Definition store_context (g : gvar) (h : Z) (w : world) : world :=
  {| trace := trace w; ecm_connects := ecm_connects w;
     mem := match g with
            | g_ota_context =>
              {| ota_context := h;
                 ota_network_params := ota_network_params (mem w);
                 ota_agent_params := ota_agent_params (mem w);
                 ota_interfaces := ota_interfaces (mem w) |}
            | _ => mem w
            end;
     writes := writes w ++ [g] |}.

Inductive stop :=
| Halted        (* CY_ASSERT(0) *)
| Suspended     (* vTaskSuspend(NULL) *)
| Undefined     (* a library call outside its contract *)
| OutOfFuel.    (* the loop model ran out of fuel: never happens, see below *)

Inductive outcome (A : Type) :=
| Ret (a : A) (w : world)
| Stop (s : stop) (w : world).

Arguments Ret {A} a w.
Arguments Stop {A} s w.

Definition M (A : Type) : Type := world -> outcome A.

#[export] Instance Monad_M : Monad M := {|
  ret := fun _ a w => Ret a w;
  bind := fun _ _ m k w =>
    match m w with
    | Ret a w' => k a w'
    | Stop s w' => Stop s w'
    end
|}.

Definition world_of {A} (o : outcome A) : world :=
  match o with
  | Ret _ w => w
  | Stop _ w => w
  end.

(** ** What the build and the environment fix *)

(** Constants and macros that come from headers outside the file. *)
Record build := {
  CY_RSLT_SUCCESS : Z;
  CY_RSLT_TYPE_ERROR : Z;
  INTERFACE_ID : Z;
  TEST_REVERT : bool;                       (* whether TEST_REVERT is defined *)
  pdMS_TO_TICKS : Z -> Z;
  state_value : cy_ota_agent_state_t -> Z;  (* the integer behind an enumerator *)
  HTTP_SERVER : string;
  HTTP_SERVER_PORT : Z;
  OTA_HTTP_JOB_FILE : string;
  ENABLE_TLS : bool;
  ROOT_CA_CERTIFICATE : string;
  USING_CLIENT_CERTIFICATE : bool;
  CLIENT_CERTIFICATE : string;
  USING_CLIENT_KEY : bool;
  CLIENT_KEY : string;
  CY_OTA_JOB_FLOW : Z;
  CY_OTA_CONNECTION_HTTP : Z;
  CY_OTA_CONNECTION_HTTPS : Z
}.

(** What the functions called by the file answer. *)
Record env := {
  state_string_of : cy_ota_agent_state_t -> string;
  last_error : Z;
  error_string_of : Z -> string;
  ecm_init_result : Z;
  ethif_init_result : Z;
  ethif_handle : Z;
  ecm_connect_result : nat -> Z;   (* answer to the n-th call of cy_ecm_connect *)
  ecm_connect_ip : nat -> Z;       (* address it assigns *)
  storage_init_result : Z;
  image_validate_result : Z -> Z;
  network_init_result : Z;
  agent_start_result : Z;
  agent_start_handle : Z
}.

(** ** Macros of the file *)

Definition MAX_CONNECTION_RETRIES : Z := 10.
Definition ETHERNET_CONN_RETRY_DELAY_MS : Z := 500.
Definition APP_ID : Z := 0.

(** Integer conversions used in the calls to [printf]. *)
Definition uint8 (z : Z) : Z := z mod 256.
Definition int_of_rslt (z : Z) : Z :=
  let u := z mod 2 ^ 32 in if u <? 2 ^ 31 then u else u - 2 ^ 32.

(** [uint32_t] to [unsigned long]: a widening, the value is kept. *)
Definition unsigned_long (z : Z) : Z := z.

Definition sizeof_literal (s : string) : Z := Z.of_nat (String.length s) + 1.

Section Program.

Variable B : build.
Variable E : env.

(** ** Functions called by the file *)

Definition call_out {A : Type} (c : call) (a : A) : M A :=
  fun w => Ret a (record_call c w).

(** [printf]: undefined when the arguments do not fit the format. *)
Definition printf (fmt : string) (args : list value) : M unit :=
  fun w =>
    let w' := record_call (call_printf fmt args) w in
    if printf_defined fmt args then Ret tt w' else Stop Undefined w'.

(** [strlen]: undefined unless the argument is a NUL-terminated string. *)
Definition strlen (p : cptr) : M Z :=
  fun w =>
    let w' := record_call (call_strlen p) w in
    match c_strlen p with
    | Some n => Ret (Z.of_nat n) w'
    | None => Stop Undefined w'
    end.

(** Modelled from the spec: the macro [CY_ASSERT] is defined outside the
    file; a failed assertion halts the entire process. *)
Definition CY_ASSERT (x : Z) : M unit :=
  fun w =>
    let w' := record_call (call_CY_ASSERT x) w in
    if x =? 0 then Stop Halted w' else Ret tt w'.

(** Modelled from the spec: [vTaskSuspend(NULL)] parks the calling task
    permanently. *)
Definition vTaskSuspend_NULL : M unit :=
  fun w => Stop Suspended (record_call call_vTaskSuspend_NULL w).

Definition vTaskDelay (ticks : Z) : M unit :=
  call_out (call_vTaskDelay ticks) tt.

Definition print_heap_usage (msg : string) : M unit :=
  call_out (call_print_heap_usage msg) tt.

(** Modelled from the spec: state and last error are converted to display
    strings by lookups supplied from outside. *)
Definition cy_ota_get_state_string (st : cy_ota_agent_state_t) : M cptr :=
  call_out (call_cy_ota_get_state_string st) (str (state_string_of E st)).

Definition cy_ota_get_last_error : M Z :=
  call_out call_cy_ota_get_last_error (last_error E).

Definition cy_ota_get_error_string (err : Z) : M cptr :=
  call_out (call_cy_ota_get_error_string err) (str (error_string_of E err)).

Definition cy_ecm_init : M Z :=
  call_out call_cy_ecm_init (ecm_init_result E).

(** Answers the result and the handle written through the last argument. *)
Definition cy_ecm_ethif_init (iface : Z) (phy : gvar) : M (Z * Z) :=
  call_out (call_cy_ecm_ethif_init iface phy) (ethif_init_result E, ethif_handle E).

(** Answers the result and the address written through the last argument. *)
Definition cy_ecm_connect (handle : Z) : M (Z * Z) :=
  fun w =>
    let n := ecm_connects w in
    Ret (ecm_connect_result E n, ecm_connect_ip E n)
        (count_connect (record_call (call_cy_ecm_connect handle) w)).

Definition cy_ota_storage_init : M Z :=
  call_out call_cy_ota_storage_init (storage_init_result E).

Definition cy_ota_storage_image_validate (app_id : Z) : M Z :=
  call_out (call_cy_ota_storage_image_validate app_id) (image_validate_result E app_id).

Definition cy_awsport_network_init : M Z :=
  call_out call_cy_awsport_network_init (network_init_result E).

(** Modelled from the spec: the agent's start entry point returns either a
    session handle (success), stored through its last argument, or an error
    code. *)
Definition cy_ota_agent_start (np ap si ctx_ptr : gvar) : M Z :=
  fun w =>
    let w' := record_call (call_cy_ota_agent_start np ap si ctx_ptr) w in
    let r := agent_start_result E in
    if r =? CY_RSLT_SUCCESS B
    then Ret r (store_context ctx_ptr (agent_start_handle E) w')
    else Ret r w'.

(** ** Initial contents of the globals *)

Definition ota_network_params_init : cy_ota_network_params_t :=
  {| http :=
       {| http_server :=
            {| host_name := str (HTTP_SERVER B); port := HTTP_SERVER_PORT B |};
          http_file := str (OTA_HTTP_JOB_FILE B);
          http_credentials :=
            if ENABLE_TLS B then
              {| root_ca := str (ROOT_CA_CERTIFICATE B);
                 root_ca_size := sizeof_literal (ROOT_CA_CERTIFICATE B);
                 client_cert :=
                   if USING_CLIENT_CERTIFICATE B then str (CLIENT_CERTIFICATE B) else NULL;
                 client_cert_size :=
                   if USING_CLIENT_CERTIFICATE B then sizeof_literal (CLIENT_CERTIFICATE B) else 0;
                 private_key :=
                   if USING_CLIENT_KEY B then str (CLIENT_KEY B) else NULL;
                 private_key_size :=
                   if USING_CLIENT_KEY B then sizeof_literal (CLIENT_KEY B) else 0 |}
            else
              {| root_ca := NULL; root_ca_size := 0;
                 client_cert := NULL; client_cert_size := 0;
                 private_key := NULL; private_key_size := 0 |} |};
     use_get_job_flow := CY_OTA_JOB_FLOW B;
     initial_connection :=
       if ENABLE_TLS B then CY_OTA_CONNECTION_HTTPS B else CY_OTA_CONNECTION_HTTP B |}.

Definition ota_agent_params_init : cy_ota_agent_params_t :=
  {| cb_func := "ota_callback";
     cb_arg := g_ota_context;
     reboot_upon_completion := 1;
     validate_after_reboot := 1;
     do_not_send_result := 1 |}.

Definition ota_interfaces_init : cy_ota_storage_interface_t :=
  {| ota_file_open := "cy_ota_storage_open";
     ota_file_read := "cy_ota_storage_read";
     ota_file_write := "cy_ota_storage_write";
     ota_file_close := "cy_ota_storage_close";
     ota_file_verify := "cy_ota_storage_verify";
     ota_file_validate := "cy_ota_storage_image_validate";
     ota_file_get_app_info := "cy_ota_storage_get_app_info" |}.

(** The world at process start: nothing called yet, globals as initialised
    ([ota_context] has no initialiser, hence zero). *)
Definition boot : world :=
  {| trace := [];
     ecm_connects := 0%nat;
     mem := {| ota_context := 0;
               ota_network_params := ota_network_params_init;
               ota_agent_params := ota_agent_params_init;
               ota_interfaces := ota_interfaces_init |};
     writes := [] |}.

(** ** The functions of the file *)

Definition when (b : bool) (m : M unit) : M unit :=
  if b then m else ret tt.

(** The [for] loop of [ethernet_connect].  [inl r] is the [return r] taken
    inside the loop, [inr result] leaving the loop with the variable
    [result].  [conn_retries] is a [uint8_t]. *)
Fixpoint connect_loop (fuel : nat) (ecm_handle : Z) (conn_retries : Z) (result : Z)
  : M (Z + Z) :=
  if conn_retries <? MAX_CONNECTION_RETRIES then
    match fuel with
    | O => fun w => Stop OutOfFuel w
    | S fuel' =>
      printf "Initiating cy_ecm_connect \n" [] ;;
      ' (result, v4) <- cy_ecm_connect ecm_handle ;;
      if CY_RSLT_SUCCESS B =? result then
        printf "Successfully connected to Ethernet.\n" [] ;;
        printf "IP Address Assigned: %d.%d.%d.%d\n"
               [VInt (uint8 v4); VInt (uint8 (Z.shiftr v4 8));
                VInt (uint8 (Z.shiftr v4 16)); VInt (uint8 (Z.shiftr v4 24))] ;;
        ret (inl result)
      else
        printf "Connection to Ethernet network failed with error code %d.Retrying in %d ms...\n"
               [VInt (int_of_rslt result); VInt ETHERNET_CONN_RETRY_DELAY_MS] ;;
        vTaskDelay (pdMS_TO_TICKS B ETHERNET_CONN_RETRY_DELAY_MS) ;;
        connect_loop fuel' ecm_handle (uint8 (conn_retries + 1)) result
    end
  else ret (inr result).

Definition ethernet_connect : M Z :=
  let result := CY_RSLT_TYPE_ERROR B in
  let conn_retries := 0 in
  result <- cy_ecm_init ;;
  when (negb (CY_RSLT_SUCCESS B =? result))
       (printf "\n Ethernet Connection Manager initialization failed\n" [] ;;
        CY_ASSERT 0) ;;
  printf "Initiating cy_ecm_ethif_init \n" [] ;;
  ' (result, ecm_handle) <- cy_ecm_ethif_init (INTERFACE_ID B) g_phy_callbacks ;;
  when (negb (CY_RSLT_SUCCESS B =? result))
       (printf "\nEthernet Interface initialization failed!\n" [] ;;
        CY_ASSERT 0) ;;
  left <- connect_loop (Z.to_nat MAX_CONNECTION_RETRIES) ecm_handle conn_retries result ;;
  match left with
  | inl r => ret r
  | inr result =>
    printf "Exceeded maximum Ethernet connection attempts\n" [] ;;
    ret result
  end.

Definition ota_task : M unit :=
  r <- cy_ota_storage_init ;;
  when (negb (CY_RSLT_SUCCESS B =? r))
       (printf "\n Initializing ota storage failed.\n" [] ;;
        CY_ASSERT 0) ;;
  (if TEST_REVERT B then ret tt
   else
     r <- cy_ota_storage_image_validate APP_ID ;;
     when (negb (CY_RSLT_SUCCESS B =? r))
          (printf "\n Failed to validate the update.\n" [] ;;
           CY_ASSERT 0)) ;;
  r <- ethernet_connect ;;
  when (negb (CY_RSLT_SUCCESS B =? r))
       (printf "\n Failed to connect to Ethernet.\n" [] ;;
        CY_ASSERT 0) ;;
  r <- cy_awsport_network_init ;;
  when (negb (CY_RSLT_SUCCESS B =? r))
       (printf "\n Initializing secure sockets failed.\n" [] ;;
        CY_ASSERT 0) ;;
  r <- cy_ota_agent_start g_ota_network_params g_ota_agent_params
                          g_ota_interfaces g_ota_context ;;
  when (negb (CY_RSLT_SUCCESS B =? r))
       (printf "\n Initializing and starting the OTA agent failed.\n" [] ;;
        CY_ASSERT 0) ;;
  vTaskSuspend_NULL.

(** The validation of the job-connect case, with the short-circuit of [||]. *)
Definition job_connect_invalid (cb : cy_ota_cb_struct_t) : M bool :=
  match host_name (broker_server cb) with
  | None => ret true
  | Some _ =>
    if port (broker_server cb) =? 0 then ret true
    else
      n <- strlen (file cb) ;;
      ret (n =? 0)
  end.

(** [cb_data] is [None] for the null pointer. *)
Definition ota_callback (cb_data : option cy_ota_cb_struct_t)
  : M cy_ota_callback_results_t :=
  let cb_result := CY_OTA_CB_RSLT_OTA_CONTINUE in
  match cb_data with
  | None => ret CY_OTA_CB_RSLT_OTA_STOP
  | Some cb =>
    state_string <- cy_ota_get_state_string (ota_agt_state cb) ;;
    err <- cy_ota_get_last_error ;;
    error_string <- cy_ota_get_error_string err ;;
    print_heap_usage "In OTA Callback" ;;
    match reason cb with
    | CY_OTA_LAST_REASON => ret cb_result
    | CY_OTA_REASON_SUCCESS =>
      printf ">> APP CB OTA SUCCESS state:%d %s last_error:%s\n\n"
             [VInt (state_value B (ota_agt_state cb)); VPtr state_string; VPtr error_string] ;;
      ret cb_result
    | CY_OTA_REASON_FAILURE =>
      printf ">> APP CB OTA FAILURE state:%d %s last_error:%s\n\n"
             [VInt (state_value B (ota_agt_state cb)); VPtr state_string; VPtr error_string] ;;
      ret cb_result
    | CY_OTA_REASON_STATE_CHANGE =>
      match ota_agt_state cb with
      | CY_OTA_STATE_NOT_INITIALIZED
      | CY_OTA_STATE_EXITING
      | CY_OTA_STATE_INITIALIZING
      | CY_OTA_STATE_AGENT_STARTED
      | CY_OTA_STATE_AGENT_WAITING => ret cb_result
      | CY_OTA_STATE_START_UPDATE =>
        printf "APP CB OTA STATE CHANGE CY_OTA_STATE_START_UPDATE\n" [] ;;
        ret cb_result
      | CY_OTA_STATE_JOB_CONNECT =>
        printf "APP CB OTA CONNECT FOR JOB using " [] ;;
        invalid <- job_connect_invalid cb ;;
        cb_result <-
          (if invalid : bool then
             printf "ERROR in callback data: HTTP: server: %p port: %d topic: '%p'\n"
                    [VPtr (host_name (broker_server cb));
                     VInt (port (broker_server cb));
                     VPtr (file cb)] ;;
             ret CY_OTA_CB_RSLT_OTA_STOP
           else ret cb_result) ;;
        printf "HTTP: server:%s port: %d file: '%s'\n"
               [VPtr (host_name (broker_server cb));
                VInt (port (broker_server cb));
                VPtr (file cb)] ;;
        ret cb_result
      | CY_OTA_STATE_JOB_DOWNLOAD =>
        printf "APP CB OTA JOB DOWNLOAD using " [] ;;
        printf "HTTP: '%s'\n" [VPtr (file cb)] ;;
        ret cb_result
      | CY_OTA_STATE_JOB_DISCONNECT =>
        printf "APP CB OTA JOB DISCONNECT\n" [] ;;
        ret cb_result
      | CY_OTA_STATE_JOB_PARSE =>
        n <- strlen (json_doc cb) ;;
        printf "APP CB OTA PARSE JOB: '%.*s' \n" [VInt n; VPtr (json_doc cb)] ;;
        ret cb_result
      | CY_OTA_STATE_JOB_REDIRECT =>
        printf "APP CB OTA JOB REDIRECT\n" [] ;;
        ret cb_result
      | CY_OTA_STATE_DATA_CONNECT =>
        printf "APP CB OTA CONNECT FOR DATA using " [] ;;
        printf "HTTP: %s:%d \n"
               [VPtr (host_name (broker_server cb)); VInt (port (broker_server cb))] ;;
        ret cb_result
      | CY_OTA_STATE_DATA_DOWNLOAD =>
        printf "APP CB OTA DATA DOWNLOAD using " [] ;;
        n <- strlen (json_doc cb) ;;
        printf "HTTP: '%.*s' " [VInt n; VPtr (json_doc cb)] ;;
        printf "File: '%s'\n\n" [VPtr (file cb)] ;;
        ret cb_result
      | CY_OTA_STATE_DATA_DISCONNECT =>
        printf "APP CB OTA DATA DISCONNECT\n" [] ;;
        ret cb_result
      | CY_OTA_STATE_RESULT_CONNECT =>
        printf "APP CB OTA SEND RESULT CONNECT using " [] ;;
        printf "HTTP: Server:%s port: %d\n"
               [VPtr (host_name (broker_server cb)); VInt (port (broker_server cb))] ;;
        ret cb_result
      | CY_OTA_STATE_RESULT_SEND =>
        printf "APP CB OTA SENDING RESULT using " [] ;;
        printf "HTTP: '%s' \n" [VPtr (json_doc cb)] ;;
        ret cb_result
      | CY_OTA_STATE_RESULT_RESPONSE =>
        printf "APP CB OTA Got Result response\n" [] ;;
        ret cb_result
      | CY_OTA_STATE_RESULT_DISCONNECT =>
        printf "APP CB OTA Result Disconnect\n" [] ;;
        ret cb_result
      | CY_OTA_STATE_OTA_COMPLETE =>
        printf "APP CB OTA Session Complete\n" [] ;;
        ret cb_result
      | CY_OTA_STATE_STORAGE_OPEN =>
        printf "APP CB OTA STORAGE OPEN\n" [] ;;
        ret cb_result
      | CY_OTA_STATE_STORAGE_WRITE =>
        printf "APP CB OTA STORAGE WRITE %ld%% (%ld of %ld)\n"
               [VInt (unsigned_long (percentage cb));
                VInt (unsigned_long (bytes_written cb));
                VInt (unsigned_long (total_size cb))] ;;
        printf "\x1b[1F" [] ;;
        ret cb_result
      | CY_OTA_STATE_STORAGE_CLOSE =>
        printf "APP CB OTA STORAGE CLOSE\n" [] ;;
        ret cb_result
      | CY_OTA_STATE_VERIFY =>
        printf "APP CB OTA VERIFY\n" [] ;;
        ret cb_result
      | CY_OTA_STATE_RESULT_REDIRECT =>
        printf "APP CB OTA RESULT REDIRECT\n" [] ;;
        ret cb_result
      | CY_OTA_NUM_STATES => ret cb_result
      | CY_OTA_STATE_other _ => ret cb_result
      end
    | CY_OTA_REASON_other _ => ret cb_result
    end
  end.

End Program.

(** ** Reading a run of the link bring-up *)

(** The world after the calls [tr], of which [n] are to [cy_ecm_connect]. *)
Definition advance (tr : list call) (n : nat) (w : world) : world :=
  {| trace := trace w ++ tr; ecm_connects := (ecm_connects w + n)%nat;
     mem := mem w; writes := writes w |}.

Definition is_connect (c : call) : bool :=
  match c with call_cy_ecm_connect _ => true | _ => false end.

Definition is_delay (c : call) : bool :=
  match c with call_vTaskDelay _ => true | _ => false end.

Definition is_assert (c : call) : bool :=
  match c with call_CY_ASSERT _ => true | _ => false end.

Definition count (p : call -> bool) (tr : list call) : nat :=
  List.length (filter p tr).

(** The calls of one pass through the loop of [ethernet_connect] that ends
    in failure with result [r], and of one that succeeds with address [v4]. *)
Definition failed_attempt (B : build) (h r : Z) : list call :=
  [call_printf "Initiating cy_ecm_connect \n" [];
   call_cy_ecm_connect h;
   call_printf "Connection to Ethernet network failed with error code %d.Retrying in %d ms...\n"
               [VInt (int_of_rslt r); VInt ETHERNET_CONN_RETRY_DELAY_MS];
   call_vTaskDelay (pdMS_TO_TICKS B ETHERNET_CONN_RETRY_DELAY_MS)].

Definition successful_attempt (h v4 : Z) : list call :=
  [call_printf "Initiating cy_ecm_connect \n" [];
   call_cy_ecm_connect h;
   call_printf "Successfully connected to Ethernet.\n" [];
   call_printf "IP Address Assigned: %d.%d.%d.%d\n"
               [VInt (uint8 v4); VInt (uint8 (Z.shiftr v4 8));
                VInt (uint8 (Z.shiftr v4 16)); VInt (uint8 (Z.shiftr v4 24))]].

(** The calls before the loop when both initialisations succeed. *)
Definition link_init_calls (B : build) : list call :=
  [call_cy_ecm_init;
   call_printf "Initiating cy_ecm_ethif_init \n" [];
   call_cy_ecm_ethif_init (INTERFACE_ID B) g_phy_callbacks].

(** [n] passes of the loop, the first of them the [c]-th call of
    [cy_ecm_connect]: the calls made, how many of them connect, and how the
    loop is left. *)
Fixpoint loop_calls (B : build) (E : env) (c n : nat) : list call :=
  match n with
  | O => []
  | S n' =>
    if CY_RSLT_SUCCESS B =? ecm_connect_result E c
    then successful_attempt (ethif_handle E) (ecm_connect_ip E c)
    else failed_attempt B (ethif_handle E) (ecm_connect_result E c)
         ++ loop_calls B E (S c) n'
  end.

Fixpoint loop_connects (B : build) (E : env) (c n : nat) : nat :=
  match n with
  | O => O
  | S n' =>
    if CY_RSLT_SUCCESS B =? ecm_connect_result E c then 1%nat
    else S (loop_connects B E (S c) n')
  end.

Fixpoint loop_exit (B : build) (E : env) (c n : nat) (result : Z) : Z + Z :=
  match n with
  | O => inr result
  | S n' =>
    if CY_RSLT_SUCCESS B =? ecm_connect_result E c then inl (ecm_connect_result E c)
    else loop_exit B E (S c) n' (ecm_connect_result E c)
  end.

(** What [ethernet_connect] does, read off the answers of the environment. *)
Definition ethernet_connect_outcome (B : build) (E : env) (w : world) : outcome Z :=
  if negb (CY_RSLT_SUCCESS B =? ecm_init_result E) then
    Stop Halted
         (advance [call_cy_ecm_init;
                   call_printf "\n Ethernet Connection Manager initialization failed\n" [];
                   call_CY_ASSERT 0] 0 w)
  else if negb (CY_RSLT_SUCCESS B =? ethif_init_result E) then
    Stop Halted
         (advance (link_init_calls B ++
                   [call_printf "\nEthernet Interface initialization failed!\n" [];
                    call_CY_ASSERT 0]) 0 w)
  else
    let c := ecm_connects w in
    let n := Z.to_nat MAX_CONNECTION_RETRIES in
    match loop_exit B E c n (ethif_init_result E) with
    | inl r =>
      Ret r (advance (link_init_calls B ++ loop_calls B E c n) (loop_connects B E c n) w)
    | inr r =>
      Ret r (advance (link_init_calls B ++ loop_calls B E c n ++
                      [call_printf "Exceeded maximum Ethernet connection attempts\n" []])
                     (loop_connects B E c n) w)
    end.

(** [n] failed passes, from the [c]-th call of [cy_ecm_connect] on. *)
Definition failed_attempts (B : build) (E : env) (c n : nat) : list call :=
  flat_map (fun k => failed_attempt B (ethif_handle E) (ecm_connect_result E k)) (seq c n).

(** ** Events and calls of the logger *)

(** The calls [ota_callback] makes before it dispatches on the reason. *)
Definition callback_prologue (E : env) (st : cy_ota_agent_state_t) : list call :=
  [call_cy_ota_get_state_string st;
   call_cy_ota_get_last_error;
   call_cy_ota_get_error_string (last_error E);
   call_print_heap_usage "In OTA Callback"].

(** The print of the connection target in the job-connect case. *)
Definition target_print (cb : cy_ota_cb_struct_t) : call :=
  call_printf "HTTP: server:%s port: %d file: '%s'\n"
              [VPtr (host_name (broker_server cb));
               VInt (port (broker_server cb));
               VPtr (file cb)].

(** The print of the validation error in the job-connect case. *)
Definition error_print (cb : cy_ota_cb_struct_t) : call :=
  call_printf "ERROR in callback data: HTTP: server: %p port: %d topic: '%p'\n"
              [VPtr (host_name (broker_server cb));
               VInt (port (broker_server cb));
               VPtr (file cb)].

(** A state-change event. *)
Definition state_change (st : cy_ota_agent_state_t) (host : cptr) (p : Z)
           (f j : cptr) (pct written total : Z) : cy_ota_cb_struct_t :=
  {| reason := CY_OTA_REASON_STATE_CHANGE;
     ota_agt_state := st;
     total_size := total;
     bytes_written := written;
     percentage := pct;
     broker_server := {| host_name := host; port := p |};
     file := f;
     json_doc := j |}.

(** ** A concrete build and environment *)

Definition sample_state_value (st : cy_ota_agent_state_t) : Z :=
  match st with
  | CY_OTA_STATE_NOT_INITIALIZED => 0
  | CY_OTA_STATE_EXITING => 1
  | CY_OTA_STATE_INITIALIZING => 2
  | CY_OTA_STATE_AGENT_STARTED => 3
  | CY_OTA_STATE_AGENT_WAITING => 4
  | CY_OTA_STATE_STORAGE_OPEN => 5
  | CY_OTA_STATE_STORAGE_WRITE => 6
  | CY_OTA_STATE_STORAGE_CLOSE => 7
  | CY_OTA_STATE_START_UPDATE => 8
  | CY_OTA_STATE_JOB_CONNECT => 9
  | CY_OTA_STATE_JOB_DOWNLOAD => 10
  | CY_OTA_STATE_JOB_DISCONNECT => 11
  | CY_OTA_STATE_JOB_PARSE => 12
  | CY_OTA_STATE_JOB_REDIRECT => 13
  | CY_OTA_STATE_DATA_CONNECT => 14
  | CY_OTA_STATE_DATA_DOWNLOAD => 15
  | CY_OTA_STATE_DATA_DISCONNECT => 16
  | CY_OTA_STATE_VERIFY => 17
  | CY_OTA_STATE_RESULT_REDIRECT => 18
  | CY_OTA_STATE_RESULT_CONNECT => 19
  | CY_OTA_STATE_RESULT_SEND => 20
  | CY_OTA_STATE_RESULT_RESPONSE => 21
  | CY_OTA_STATE_RESULT_DISCONNECT => 22
  | CY_OTA_STATE_OTA_COMPLETE => 23
  | CY_OTA_NUM_STATES => 24
  | CY_OTA_STATE_other v => v
  end.

Definition sample_build : build :=
  {| CY_RSLT_SUCCESS := 0;
     CY_RSLT_TYPE_ERROR := 2;
     INTERFACE_ID := 1;
     TEST_REVERT := false;
     pdMS_TO_TICKS := fun ms => ms;
     state_value := sample_state_value;
     HTTP_SERVER := "192.168.0.10";
     HTTP_SERVER_PORT := 4443;
     OTA_HTTP_JOB_FILE := "/ota_update.json";
     ENABLE_TLS := true;
     ROOT_CA_CERTIFICATE := "root-ca";
     USING_CLIENT_CERTIFICATE := true;
     CLIENT_CERTIFICATE := "client-cert";
     USING_CLIENT_KEY := true;
     CLIENT_KEY := "client-key";
     CY_OTA_JOB_FLOW := 1;
     CY_OTA_CONNECTION_HTTP := 2;
     CY_OTA_CONNECTION_HTTPS := 3 |}.

(** An environment in which every call succeeds except [cy_ecm_connect],
    whose [n]-th call answers [conn n]. *)
Definition sample_env (conn : nat -> Z) : env :=
  {| state_string_of := fun _ => "STATE";
     last_error := 0;
     error_string_of := fun _ => "ERROR";
     ecm_init_result := 0;
     ethif_init_result := 0;
     ethif_handle := 77;
     ecm_connect_result := conn;
     ecm_connect_ip := fun _ => 3232235786;
     storage_init_result := 0;
     image_validate_result := fun _ => 0;
     network_init_result := 0;
     agent_start_result := 0;
     agent_start_handle := 4096 |}.

(** The link never comes up; it comes up at the fourth attempt. *)
Definition never_up : nat -> Z := fun _ => 5.
Definition up_at_fourth : nat -> Z := fun n => if (n <? 3)%nat then 5 else 0.

(** ** Reading a run of the event logger *)

(** What [ota_callback] does on the job-connect state change [cb]. *)
Definition job_connect_outcome (E : env) (cb : cy_ota_cb_struct_t) (w : world)
  : outcome cy_ota_callback_results_t :=
  let pre := callback_prologue E CY_OTA_STATE_JOB_CONNECT ++
             [call_printf "APP CB OTA CONNECT FOR JOB using " []] in
  let finish (tr : list call) (r : cy_ota_callback_results_t) :=
      let w' := advance (pre ++ tr ++ [target_print cb]) 0 w in
      if is_cstring (host_name (broker_server cb)) && is_cstring (file cb)
      then Ret r w' else Stop Undefined w' in
  match host_name (broker_server cb) with
  | None => finish [error_print cb] CY_OTA_CB_RSLT_OTA_STOP
  | Some _ =>
    if port (broker_server cb) =? 0
    then finish [error_print cb] CY_OTA_CB_RSLT_OTA_STOP
    else
      match c_strlen (file cb) with
      | None => Stop Undefined (advance (pre ++ [call_strlen (file cb)]) 0 w)
      | Some O =>
        finish [call_strlen (file cb); error_print cb] CY_OTA_CB_RSLT_OTA_STOP
      | Some (S _) =>
        finish [call_strlen (file cb)] CY_OTA_CB_RSLT_OTA_CONTINUE
      end
  end.

(** The cases of the inner switch that hand a string field of the event
    record to [strlen] or to a [%s] conversion. *)
Definition formats_string_field (st : cy_ota_agent_state_t) : bool :=
  match st with
  | CY_OTA_STATE_JOB_CONNECT
  | CY_OTA_STATE_JOB_DOWNLOAD
  | CY_OTA_STATE_JOB_PARSE
  | CY_OTA_STATE_DATA_CONNECT
  | CY_OTA_STATE_DATA_DOWNLOAD
  | CY_OTA_STATE_RESULT_CONNECT
  | CY_OTA_STATE_RESULT_SEND => true
  | _ => false
  end.

(** Every value [m] returns satisfies [P]. *)
Definition returns_only {A : Type} (P : A -> Prop) (m : M A) : Prop :=
  forall w a w', m w = Ret a w' -> P a.

Definition continue_or_stop (r : cy_ota_callback_results_t) : Prop :=
  r = CY_OTA_CB_RSLT_OTA_CONTINUE \/ r = CY_OTA_CB_RSLT_OTA_STOP.

(** ** Reading a run of the task *)

(** The steps of [ota_task], each marked in the trace by its first call. *)
Inductive step :=
| storage_init
| post_revert_validation
| link_bring_up
| secure_transport_bootstrap
| agent_launch.

Definition step_of_call (c : call) : option step :=
  match c with
  | call_cy_ota_storage_init => Some storage_init
  | call_cy_ota_storage_image_validate _ => Some post_revert_validation
  | call_cy_ecm_init => Some link_bring_up
  | call_cy_awsport_network_init => Some secure_transport_bootstrap
  | call_cy_ota_agent_start _ _ _ _ => Some agent_launch
  | _ => None
  end.

(** The steps begun in a trace, in the order they were begun. *)
Fixpoint steps_begun (tr : list call) : list step :=
  match tr with
  | [] => []
  | c :: r =>
    match step_of_call c with
    | Some s => s :: steps_begun r
    | None => steps_begun r
    end
  end.

(** The order the contract asks for; validation is compiled out when
    [TEST_REVERT] is defined. *)
Definition plan (B : build) : list step :=
  storage_init ::
  (if TEST_REVERT B then [] else [post_revert_validation]) ++
  [link_bring_up; secure_transport_bootstrap; agent_launch].

(** One of the [n] calls of [cy_ecm_connect] from the [c]-th on succeeds. *)
Definition some_attempt_succeeds (B : build) (E : env) (c n : nat) : bool :=
  existsb (fun k => CY_RSLT_SUCCESS B =? ecm_connect_result E k) (seq c n).

(** Whether a step succeeds, [c] calls of [cy_ecm_connect] having been made
    before the task starts. *)
Definition step_succeeds (B : build) (E : env) (c : nat) (s : step) : bool :=
  match s with
  | storage_init => CY_RSLT_SUCCESS B =? storage_init_result E
  | post_revert_validation => CY_RSLT_SUCCESS B =? image_validate_result E APP_ID
  | link_bring_up =>
    (CY_RSLT_SUCCESS B =? ecm_init_result E) &&
    (CY_RSLT_SUCCESS B =? ethif_init_result E) &&
    some_attempt_succeeds B E c 10
  | secure_transport_bootstrap => CY_RSLT_SUCCESS B =? network_init_result E
  | agent_launch => CY_RSLT_SUCCESS B =? agent_start_result E
  end.

(** The steps of [l] up to and including the first that fails. *)
Fixpoint until_first_failure (ok : step -> bool) (l : list step) : list step :=
  match l with
  | [] => []
  | s :: r => s :: (if ok s then until_first_failure ok r else [])
  end.

Definition agent_start_call : call :=
  call_cy_ota_agent_start g_ota_network_params g_ota_agent_params
                          g_ota_interfaces g_ota_context.

(** What [ota_task] does, read off the answers of the environment. *)
Definition ota_task_outcome (B : build) (E : env) (w : world) : outcome unit :=
  let halt (tr : list call) (msg : string) (w0 : world) : outcome unit :=
      Stop Halted (advance (tr ++ [call_printf msg []; call_CY_ASSERT 0]) 0 w0) in
  if negb (CY_RSLT_SUCCESS B =? storage_init_result E) then
    halt [call_cy_ota_storage_init] "\n Initializing ota storage failed.\n" w
  else if negb (TEST_REVERT B) &&
          negb (CY_RSLT_SUCCESS B =? image_validate_result E APP_ID) then
    halt [call_cy_ota_storage_init; call_cy_ota_storage_image_validate APP_ID]
         "\n Failed to validate the update.\n" w
  else
    let begun :=
        call_cy_ota_storage_init ::
        (if TEST_REVERT B then [] else [call_cy_ota_storage_image_validate APP_ID]) in
    match ethernet_connect_outcome B E (advance begun 0 w) with
    | Stop s w1 => Stop s w1
    | Ret r w1 =>
      if negb (CY_RSLT_SUCCESS B =? r) then
        halt [] "\n Failed to connect to Ethernet.\n" w1
      else if negb (CY_RSLT_SUCCESS B =? network_init_result E) then
        halt [call_cy_awsport_network_init]
             "\n Initializing secure sockets failed.\n" w1
      else if negb (CY_RSLT_SUCCESS B =? agent_start_result E) then
        halt [call_cy_awsport_network_init; agent_start_call]
             "\n Initializing and starting the OTA agent failed.\n" w1
      else
        Stop Suspended
             (store_context g_ota_context (agent_start_handle E)
                (advance [call_cy_awsport_network_init; agent_start_call;
                          call_vTaskSuspend_NULL] 0 w1))
    end.

(** The configuration globals in a world. *)
Definition config (w : world)
  : cy_ota_network_params_t * cy_ota_agent_params_t * cy_ota_storage_interface_t :=
  (ota_network_params (mem w), ota_agent_params (mem w), ota_interfaces (mem w)).

(** [m] leaves every global as it was and stores to none. *)
Definition keeps_globals {A : Type} (m : M A) : Prop :=
  forall w, mem (world_of (m w)) = mem w /\ writes (world_of (m w)) = writes w.

(** The last call of [tr] is [x]. *)
Definition ends_in (x : call) (tr : list call) : Prop :=
  exists tr0, tr = tr0 ++ [x].

(** Whatever [m] does, the calls so far stay and calls are only added. *)
Definition extends_trace {A : Type} (m : M A) : Prop :=
  forall w, exists tr, trace (world_of (m w)) = trace w ++ tr.

(** The value a run returns, and why a run stops. *)
Definition returned {A : Type} (o : outcome A) : option A :=
  match o with
  | Ret a _ => Some a
  | Stop _ _ => None
  end.

Definition stopped {A : Type} (o : outcome A) : option stop :=
  match o with
  | Ret _ _ => None
  | Stop s _ => Some s
  end.

(** ** Further vocabulary for runs *)

Definition is_ethif_init (c : call) : bool :=
  match c with call_cy_ecm_ethif_init _ _ => true | _ => false end.

Definition is_agent_start (c : call) : bool :=
  match c with call_cy_ota_agent_start _ _ _ _ => true | _ => false end.

Definition is_network_init (c : call) : bool :=
  match c with call_cy_awsport_network_init => true | _ => false end.

Definition is_image_validate (c : call) : bool :=
  match c with call_cy_ota_storage_image_validate _ => true | _ => false end.

(** A call of the loop of [ethernet_connect] with the argument the source
    gives it: every delay is the fixed one, every connect uses the handle
    the interface initialisation answered. *)
Definition loop_call_as_written (B : build) (E : env) (c : call) : bool :=
  match c with
  | call_vTaskDelay t => t =? pdMS_TO_TICKS B ETHERNET_CONN_RETRY_DELAY_MS
  | call_cy_ecm_connect h => h =? ethif_handle E
  | _ => true
  end.

(** The calls the logger may make: lookups, the heap report, [strlen] and
    [printf]. *)
Definition logger_call (c : call) : bool :=
  match c with
  | call_printf _ _
  | call_strlen _
  | call_print_heap_usage _
  | call_cy_ota_get_state_string _
  | call_cy_ota_get_last_error
  | call_cy_ota_get_error_string _ => true
  | _ => false
  end.

(** [m] adds the calls [tr] and then returns [a] ([o = Some a]) or is
    undefined ([o = None]), whatever the world it starts from. *)
Definition emits {A : Type} (m : M A) (tr : list call) (o : option A) : Prop :=
  forall w,
    m w = match o with
          | Some a => Ret a (advance tr 0 w)
          | None => Stop Undefined (advance tr 0 w)
          end.

(** [m] keeps no state: what it adds and answers does not depend on the
    world, and it only makes calls of the logger. *)
Definition stateless {A : Type} (m : M A) : Prop :=
  exists tr o, forallb logger_call tr = true /\ emits m tr o.

(** The line printed for a reason other than a state change. *)
Definition reason_line (B : build) (E : env) (cb : cy_ota_cb_struct_t) : list call :=
  let args := [VInt (state_value B (ota_agt_state cb));
               VPtr (str (state_string_of E (ota_agt_state cb)));
               VPtr (str (error_string_of E (last_error E)))] in
  match reason cb with
  | CY_OTA_REASON_SUCCESS =>
    [call_printf ">> APP CB OTA SUCCESS state:%d %s last_error:%s\n\n" args]
  | CY_OTA_REASON_FAILURE =>
    [call_printf ">> APP CB OTA FAILURE state:%d %s last_error:%s\n\n" args]
  | _ => []
  end.

(** The world after [ota_callback] has been invoked on each record of
    [events] in turn. *)
Fixpoint deliver (B : build) (E : env) (events : list (option cy_ota_cb_struct_t))
         (w : world) : world :=
  match events with
  | [] => w
  | ev :: rest => deliver B E rest (world_of (ota_callback B E ev w))
  end.

(** Every step before the launch of the agent succeeds. *)
Definition launch_reached (B : build) (E : env) (c : nat) : bool :=
  step_succeeds B E c storage_init &&
  (TEST_REVERT B || step_succeeds B E c post_revert_validation) &&
  step_succeeds B E c link_bring_up &&
  step_succeeds B E c secure_transport_bootstrap.

(** An environment in which [cy_ecm_init] fails. *)
Definition manager_down : env :=
  {| state_string_of := fun _ => "STATE";
     last_error := 0;
     error_string_of := fun _ => "ERROR";
     ecm_init_result := 7;
     ethif_init_result := 0;
     ethif_handle := 77;
     ecm_connect_result := never_up;
     ecm_connect_ip := fun _ => 0;
     storage_init_result := 0;
     image_validate_result := fun _ => 0;
     network_init_result := 0;
     agent_start_result := 0;
     agent_start_handle := 4096 |}.

(** A failure report on the job-connect state in which every string field
    is null and the port is zero. *)
Definition failure_report : cy_ota_cb_struct_t :=
  {| reason := CY_OTA_REASON_FAILURE;
     ota_agt_state := CY_OTA_STATE_JOB_CONNECT;
     total_size := 0;
     bytes_written := 0;
     percentage := 0;
     broker_server := {| host_name := NULL; port := 0 |};
     file := NULL;
     json_doc := NULL |}.

(** ** The logger over a C library whose [printf] returns *)






(** All steps of the task succeed, the launch of the agent included. *)
Definition agent_launched (B : build) (E : env) (c : nat) : bool :=
  launch_reached B E c && step_succeeds B E c agent_launch.

(** ** Basic facts about the monad and the world *)

Lemma bind_run {A C : Type} (m : M A) (k : A -> M C) (w : world) :
  bind m k w = match m w with Ret a w' => k a w' | Stop s w' => Stop s w' end.
Proof. reflexivity. Qed.

Lemma record_call_advance (c : call) (w : world) :
  record_call c w = advance [c] 0 w.
Proof.
  unfold record_call, advance. simpl. rewrite Nat.add_0_r. reflexivity.
Qed.

Lemma count_connect_advance (w : world) :
  count_connect w = advance [] 1 w.
Proof.
  unfold count_connect, advance. rewrite app_nil_r, Nat.add_1_r. reflexivity.
Qed.

Lemma advance_advance (t1 t2 : list call) (n1 n2 : nat) (w : world) :
  advance t2 n2 (advance t1 n1 w) = advance (t1 ++ t2) (n1 + n2) w.
Proof.
  unfold advance. simpl. rewrite app_assoc, Nat.add_assoc. reflexivity.
Qed.

Lemma advance_nil (w : world) : advance [] 0 w = w.
Proof.
  destruct w. unfold advance. simpl. rewrite app_nil_r, Nat.add_0_r. reflexivity.
Qed.

Lemma printf_run (fmt : string) (args : list value) (w : world) :
  printf_defined fmt args = true ->
  printf fmt args w = Ret tt (advance [call_printf fmt args] 0 w).
Proof.
  intros H. unfold printf. rewrite H, record_call_advance. reflexivity.
Qed.

Lemma call_out_run {A : Type} (c : call) (a : A) (w : world) :
  call_out c a w = Ret a (advance [c] 0 w).
Proof. unfold call_out. rewrite record_call_advance. reflexivity. Qed.

Lemma cy_ecm_connect_run (E : env) (h : Z) (w : world) :
  cy_ecm_connect E h w =
  Ret (ecm_connect_result E (ecm_connects w), ecm_connect_ip E (ecm_connects w))
      (advance [call_cy_ecm_connect h] 1 w).
Proof.
  unfold cy_ecm_connect. rewrite record_call_advance, count_connect_advance.
  rewrite advance_advance. reflexivity.
Qed.

Lemma CY_ASSERT_0_run (w : world) :
  CY_ASSERT 0 w = Stop Halted (advance [call_CY_ASSERT 0] 0 w).
Proof. unfold CY_ASSERT. rewrite record_call_advance. reflexivity. Qed.

Lemma uint8_small (z : Z) : 0 <= z < 256 -> uint8 z = z.
Proof. intros H. unfold uint8. apply Z.mod_small. exact H. Qed.

(** ** The loop of [ethernet_connect] *)

(** One pass that fails. *)
Lemma connect_loop_failed_pass (B : build) (E : env) (fuel : nat) (h i result : Z)
      (w : world) :
  i < MAX_CONNECTION_RETRIES ->
  (CY_RSLT_SUCCESS B =? ecm_connect_result E (ecm_connects w)) = false ->
  connect_loop B E (S fuel) h i result w =
  connect_loop B E fuel h (uint8 (i + 1)) (ecm_connect_result E (ecm_connects w))
               (advance (failed_attempt B h (ecm_connect_result E (ecm_connects w))) 1 w).
Proof.
  intros Hi Hr. cbn [connect_loop].
  apply Z.ltb_lt in Hi. rewrite Hi.
  rewrite bind_run, printf_run by reflexivity.
  rewrite bind_run, cy_ecm_connect_run.
  cbn [ecm_connects advance]. rewrite Nat.add_0_r, Hr.
  rewrite bind_run, printf_run by reflexivity.
  rewrite bind_run. unfold vTaskDelay. rewrite call_out_run.
  rewrite !advance_advance. reflexivity.
Qed.

(** One pass that succeeds. *)
Lemma connect_loop_successful_pass (B : build) (E : env) (fuel : nat) (h i result : Z)
      (w : world) :
  i < MAX_CONNECTION_RETRIES ->
  (CY_RSLT_SUCCESS B =? ecm_connect_result E (ecm_connects w)) = true ->
  connect_loop B E (S fuel) h i result w =
  Ret (inl (ecm_connect_result E (ecm_connects w)))
      (advance (successful_attempt h (ecm_connect_ip E (ecm_connects w))) 1 w).
Proof.
  intros Hi Hr. cbn [connect_loop].
  apply Z.ltb_lt in Hi. rewrite Hi.
  rewrite bind_run, printf_run by reflexivity.
  rewrite bind_run, cy_ecm_connect_run.
  cbn [ecm_connects advance]. rewrite Nat.add_0_r, Hr.
  rewrite bind_run, printf_run by reflexivity.
  rewrite bind_run, printf_run by reflexivity.
  rewrite !advance_advance. reflexivity.
Qed.

(** The loop entered with [n] passes left performs [loop_calls] and leaves
    as [loop_exit] says; [n] units of fuel suffice. *)
Lemma connect_loop_run (B : build) (E : env) :
  forall (n fuel : nat) (i result : Z) (w : world),
    (n <= fuel)%nat ->
    i = MAX_CONNECTION_RETRIES - Z.of_nat n ->
    0 <= i ->
    connect_loop B E fuel (ethif_handle E) i result w =
    Ret (loop_exit B E (ecm_connects w) n result)
        (advance (loop_calls B E (ecm_connects w) n)
                 (loop_connects B E (ecm_connects w) n) w).
Proof.
  induction n as [|n IH]; intros fuel i result w Hfuel Hi Hpos.
  - assert (Hge : (i <? MAX_CONNECTION_RETRIES) = false)
      by (apply Z.ltb_ge; lia).
    destruct fuel; cbn [connect_loop loop_exit loop_calls loop_connects];
      rewrite Hge, advance_nil; reflexivity.
  - destruct fuel as [|fuel]; [lia|].
    assert (Hlt : i < MAX_CONNECTION_RETRIES) by lia.
    cbn [loop_exit loop_calls loop_connects].
    destruct (CY_RSLT_SUCCESS B =? ecm_connect_result E (ecm_connects w)) eqn:Hr.
    + rewrite connect_loop_successful_pass by assumption. reflexivity.
    + rewrite connect_loop_failed_pass by assumption.
      rewrite IH.
      * cbn [ecm_connects advance]. rewrite Nat.add_1_r.
        rewrite advance_advance. reflexivity.
      * lia.
      * unfold MAX_CONNECTION_RETRIES in *. rewrite uint8_small by lia. lia.
      * unfold MAX_CONNECTION_RETRIES in *. rewrite uint8_small by lia. lia.
Qed.

Lemma ethernet_connect_run (B : build) (E : env) (w : world) :
  ethernet_connect B E w = ethernet_connect_outcome B E w.
Proof.
  unfold ethernet_connect, ethernet_connect_outcome.
  rewrite bind_run. unfold cy_ecm_init. rewrite call_out_run.
  rewrite bind_run.
  destruct (CY_RSLT_SUCCESS B =? ecm_init_result E) eqn:H1; cbn [negb when].
  2:{ rewrite bind_run, printf_run by reflexivity.
      rewrite CY_ASSERT_0_run, !advance_advance. reflexivity. }
  cbn [ret Monad_M].
  rewrite bind_run, printf_run by reflexivity.
  rewrite bind_run. unfold cy_ecm_ethif_init. rewrite call_out_run.
  rewrite bind_run.
  destruct (CY_RSLT_SUCCESS B =? ethif_init_result E) eqn:H2; cbn [negb when].
  2:{ rewrite bind_run, printf_run by reflexivity.
      rewrite CY_ASSERT_0_run, !advance_advance. reflexivity. }
  cbn [ret Monad_M].
  rewrite bind_run.
  rewrite (connect_loop_run B E (Z.to_nat MAX_CONNECTION_RETRIES));
    [ | apply Nat.le_refl | reflexivity | reflexivity ].
  rewrite !advance_advance. cbn [ecm_connects advance Nat.add].
  rewrite Nat.add_0_r.
  destruct (loop_exit B E (ecm_connects w) (Z.to_nat MAX_CONNECTION_RETRIES)
                      (ethif_init_result E)) as [r|r].
  - reflexivity.
  - rewrite bind_run, printf_run by reflexivity.
    rewrite advance_advance, Nat.add_0_r, <- !app_assoc. reflexivity.
Qed.

(** ** The loop when every pass fails, and when pass [k] is the first to succeed *)

Lemma loop_all_fail (B : build) (E : env) :
  forall (n c : nat) (result : Z),
    (forall j, (j < n)%nat ->
               ecm_connect_result E (c + j) <> CY_RSLT_SUCCESS B) ->
    loop_calls B E c n = failed_attempts B E c n /\
    loop_connects B E c n = n /\
    loop_exit B E c n result =
    inr (match n with O => result | S m => ecm_connect_result E (c + m) end).
Proof.
  induction n as [|n IH]; intros c result Hfail.
  - repeat split.
  - assert (H0 : (CY_RSLT_SUCCESS B =? ecm_connect_result E c) = false).
    { apply Z.eqb_neq. intro Heq. apply (Hfail 0%nat); [lia|].
      rewrite Nat.add_0_r. symmetry. exact Heq. }
    destruct (IH (S c) (ecm_connect_result E c)) as (Hc & Hn & Hx).
    { intros j Hj. replace (S c + j)%nat with (c + S j)%nat by lia.
      apply Hfail. lia. }
    unfold failed_attempts in *.
    cbn [loop_calls loop_connects loop_exit seq flat_map]. rewrite H0, Hc, Hn, Hx.
    repeat split.
    destruct n as [|m].
    + rewrite Nat.add_0_r. reflexivity.
    + replace (S c + m)%nat with (c + S m)%nat by lia. reflexivity.
Qed.

Lemma loop_first_success (B : build) (E : env) :
  forall (k n c : nat) (result : Z),
    (k < n)%nat ->
    (forall j, (j < k)%nat ->
               ecm_connect_result E (c + j) <> CY_RSLT_SUCCESS B) ->
    ecm_connect_result E (c + k) = CY_RSLT_SUCCESS B ->
    loop_calls B E c n =
      failed_attempts B E c k ++
      successful_attempt (ethif_handle E) (ecm_connect_ip E (c + k)) /\
    loop_connects B E c n = S k /\
    loop_exit B E c n result = inl (CY_RSLT_SUCCESS B).
Proof.
  induction k as [|k IH]; intros n c result Hk Hfail Hok.
  - destruct n as [|n]; [lia|].
    rewrite Nat.add_0_r in *.
    cbn [loop_calls loop_connects loop_exit]. rewrite Hok, Z.eqb_refl.
    repeat split.
  - destruct n as [|n]; [lia|].
    assert (H0 : (CY_RSLT_SUCCESS B =? ecm_connect_result E c) = false).
    { apply Z.eqb_neq. intro Heq. apply (Hfail 0%nat); [lia|].
      rewrite Nat.add_0_r. symmetry. exact Heq. }
    destruct (IH n (S c) (ecm_connect_result E c)) as (Hc & Hn & Hx).
    { lia. }
    { intros j Hj. replace (S c + j)%nat with (c + S j)%nat by lia.
      apply Hfail. lia. }
    { replace (S c + k)%nat with (c + S k)%nat by lia. exact Hok. }
    unfold failed_attempts in *.
    cbn [loop_calls loop_connects loop_exit seq flat_map]. rewrite H0, Hc, Hn, Hx.
    replace (S c + k)%nat with (c + S k)%nat by lia.
    rewrite <- app_assoc. repeat split.
Qed.

(** ** Counting calls *)

Lemma count_app (p : call -> bool) (a b : list call) :
  count p (a ++ b) = (count p a + count p b)%nat.
Proof. unfold count. rewrite filter_app, length_app. reflexivity. Qed.

Lemma count_failed_attempts (B : build) (E : env) (n c : nat) :
  count is_connect (failed_attempts B E c n) = n /\
  count is_delay (failed_attempts B E c n) = n /\
  count is_assert (failed_attempts B E c n) = 0%nat.
Proof.
  revert c. induction n as [|n IH]; intros c.
  - repeat split.
  - destruct (IH (S c)) as (H1 & H2 & H3).
    unfold failed_attempts in *. cbn [seq flat_map].
    rewrite !count_app, H1, H2, H3. repeat split.
Qed.

(** ** Running straight-line code *)

Lemma callback_prologue_run {A : Type} (E : env) (st : cy_ota_agent_state_t)
      (k : cptr -> cptr -> M A) (w : world) :
  (state_string <- cy_ota_get_state_string E st ;;
   err <- cy_ota_get_last_error E ;;
   error_string <- cy_ota_get_error_string E err ;;
   print_heap_usage "In OTA Callback" ;;
   k state_string error_string) w =
  k (str (state_string_of E st)) (str (error_string_of E (last_error E)))
    (advance (callback_prologue E st) 0 w).
Proof.
  unfold cy_ota_get_state_string, cy_ota_get_last_error, cy_ota_get_error_string,
    print_heap_usage.
  rewrite !bind_run, !call_out_run. cbv beta iota.
  rewrite !bind_run, !call_out_run. cbv beta iota.
  rewrite !bind_run, !call_out_run. cbv beta iota.
  rewrite !bind_run, !call_out_run. cbv beta iota.
  rewrite !advance_advance. reflexivity.
Qed.

Ltac run_calls :=
  repeat first
    [ rewrite bind_run
    | rewrite printf_run by reflexivity
    | rewrite call_out_run
    | rewrite CY_ASSERT_0_run
    | rewrite advance_advance ];
  cbn [ret Monad_M app Nat.add].

(** ** The event logger *)

(** C9. On a storage-write state change, whatever the percentage, the bytes
    written and the total size are, [ota_callback] makes its opening calls,
    prints the progress line and the cursor-up escape, and returns continue. *)
Theorem ota_callback_storage_write (B : build) (E : env) (w : world)
        (host f j : cptr) (p pct written total : Z) :
  ota_callback B E
    (Some (state_change CY_OTA_STATE_STORAGE_WRITE host p f j pct written total)) w =
  Ret CY_OTA_CB_RSLT_OTA_CONTINUE
      (advance (callback_prologue E CY_OTA_STATE_STORAGE_WRITE ++
                [call_printf "APP CB OTA STORAGE WRITE %ld%% (%ld of %ld)\n"
                             [VInt pct; VInt written; VInt total];
                 call_printf "\x1b[1F" []]) 0 w).
Proof.
  unfold ota_callback. rewrite callback_prologue_run.
  cbn [reason ota_agt_state state_change percentage bytes_written total_size].
  unfold unsigned_long. run_calls. reflexivity.
Qed.

(** ** Link bring-up *)

(** C3. When both initialisations succeed and each of the ten calls of
    [cy_ecm_connect] fails, [ethernet_connect] returns the result of the
    tenth call, having made exactly ten attempts and no assertion: the
    calls are the initialisation, ten failed passes, and the closing print. *)
Theorem ethernet_connect_retries_exhausted (B : build) (E : env) (w : world) :
  ecm_init_result E = CY_RSLT_SUCCESS B ->
  ethif_init_result E = CY_RSLT_SUCCESS B ->
  (forall k, (k < 10)%nat ->
             ecm_connect_result E (ecm_connects w + k) <> CY_RSLT_SUCCESS B) ->
  let tr := link_init_calls B ++
            failed_attempts B E (ecm_connects w) 10 ++
            [call_printf "Exceeded maximum Ethernet connection attempts\n" []] in
  ethernet_connect B E w =
    Ret (ecm_connect_result E (ecm_connects w + 9)) (advance tr 10 w) /\
  ecm_connect_result E (ecm_connects w + 9) <> CY_RSLT_SUCCESS B /\
  count is_connect tr = 10%nat /\
  count is_assert tr = 0%nat.
Proof.
  intros Hinit Hethif Hfail tr.
  destruct (loop_all_fail B E 10 (ecm_connects w) (ethif_init_result E) Hfail)
    as (Hc & Hn & Hx).
  destruct (count_failed_attempts B E 10 (ecm_connects w)) as (Kc & _ & Ka).
  split; [|split; [|split]].
  - rewrite ethernet_connect_run. unfold ethernet_connect_outcome.
    rewrite Hinit, Hethif, Z.eqb_refl. cbn [negb].
    change (Z.to_nat MAX_CONNECTION_RETRIES) with 10%nat.
    rewrite <- Hethif, Hx, Hc, Hn. reflexivity.
  - apply Hfail. lia.
  - unfold tr. rewrite !count_app, Kc. reflexivity.
  - unfold tr. rewrite !count_app, Ka. reflexivity.
Qed.

Lemma ethernet_connect_retries_exhausted_witness :
  ecm_init_result (sample_env never_up) = CY_RSLT_SUCCESS sample_build /\
  ethif_init_result (sample_env never_up) = CY_RSLT_SUCCESS sample_build /\
  (forall k, (k < 10)%nat ->
     ecm_connect_result (sample_env never_up)
                        (ecm_connects (boot sample_build) + k)
     <> CY_RSLT_SUCCESS sample_build) /\
  exists w',
    ethernet_connect sample_build (sample_env never_up) (boot sample_build) = Ret 5 w'.
Proof.
  assert (H : forall k, (k < 10)%nat ->
     ecm_connect_result (sample_env never_up)
                        (ecm_connects (boot sample_build) + k)
     <> CY_RSLT_SUCCESS sample_build)
    by (intros k _; discriminate).
  split; [reflexivity|]. split; [reflexivity|]. split; [exact H|].
  eexists.
  exact (proj1 (ethernet_connect_retries_exhausted
                  sample_build (sample_env never_up) (boot sample_build)
                  eq_refl eq_refl H)).
Defined.

(** C4. When both initialisations succeed, the first [k] calls of
    [cy_ecm_connect] fail and the next one succeeds, for any [k] from 0 to
    9, [ethernet_connect] returns success with the successful pass as its
    last calls: [k + 1] attempts and [k] delays in all, none after the
    success. *)
Theorem ethernet_connect_succeeds_at (B : build) (E : env) (w : world) (k : nat) :
  (k <= 9)%nat ->
  ecm_init_result E = CY_RSLT_SUCCESS B ->
  ethif_init_result E = CY_RSLT_SUCCESS B ->
  (forall j, (j < k)%nat ->
             ecm_connect_result E (ecm_connects w + j) <> CY_RSLT_SUCCESS B) ->
  ecm_connect_result E (ecm_connects w + k) = CY_RSLT_SUCCESS B ->
  let tr := link_init_calls B ++
            failed_attempts B E (ecm_connects w) k ++
            successful_attempt (ethif_handle E) (ecm_connect_ip E (ecm_connects w + k)) in
  ethernet_connect B E w = Ret (CY_RSLT_SUCCESS B) (advance tr (S k) w) /\
  count is_connect tr = S k /\
  count is_delay tr = k /\
  count is_assert tr = 0%nat.
Proof.
  intros Hk Hinit Hethif Hfail Hok tr.
  destruct (loop_first_success B E k 10 (ecm_connects w) (ethif_init_result E))
    as (Hc & Hn & Hx); [lia | exact Hfail | exact Hok |].
  destruct (count_failed_attempts B E k (ecm_connects w)) as (Kc & Kd & Ka).
  split; [|split; [|split]].
  - rewrite ethernet_connect_run. unfold ethernet_connect_outcome.
    rewrite Hinit, Hethif, Z.eqb_refl. cbn [negb].
    change (Z.to_nat MAX_CONNECTION_RETRIES) with 10%nat.
    rewrite <- Hethif at 1. rewrite Hx, Hc, Hn. reflexivity.
  - unfold tr. rewrite !count_app, Kc. cbn. lia.
  - unfold tr. rewrite !count_app, Kd. cbn. lia.
  - unfold tr. rewrite !count_app, Ka. reflexivity.
Qed.

Lemma ethernet_connect_succeeds_at_witness :
  (3 <= 9)%nat /\
  ecm_init_result (sample_env up_at_fourth) = CY_RSLT_SUCCESS sample_build /\
  ethif_init_result (sample_env up_at_fourth) = CY_RSLT_SUCCESS sample_build /\
  (forall j, (j < 3)%nat ->
     ecm_connect_result (sample_env up_at_fourth)
                        (ecm_connects (boot sample_build) + j)
     <> CY_RSLT_SUCCESS sample_build) /\
  ecm_connect_result (sample_env up_at_fourth) (ecm_connects (boot sample_build) + 3)
    = CY_RSLT_SUCCESS sample_build /\
  exists w',
    ethernet_connect sample_build (sample_env up_at_fourth) (boot sample_build)
    = Ret 0 w' /\ ecm_connects w' = 4%nat.
Proof.
  assert (H : forall j, (j < 3)%nat ->
     ecm_connect_result (sample_env up_at_fourth)
                        (ecm_connects (boot sample_build) + j)
     <> CY_RSLT_SUCCESS sample_build).
  { intros j Hj. cbn. unfold up_at_fourth.
    destruct (Nat.ltb_spec j 3); [discriminate | lia]. }
  assert (H3 : (3 <= 9)%nat) by lia.
  split; [exact H3|]. split; [reflexivity|]. split; [reflexivity|].
  split; [exact H|]. split; [reflexivity|].
  eexists. split.
  - exact (proj1 (ethernet_connect_succeeds_at
                    sample_build (sample_env up_at_fourth) (boot sample_build) 3
                    H3 eq_refl eq_refl H eq_refl)).
  - reflexivity.
Defined.

(** ** String arguments *)

Lemma scan_nul_terminated (l : list ascii) : scan_nul (l ++ [zero]) <> None.
Proof.
  induction l as [|c l IH]; cbn.
  - discriminate.
  - destruct (Ascii.eqb c zero); [discriminate|].
    destruct (scan_nul (l ++ [zero])); [discriminate | contradiction].
Qed.

Lemma is_cstring_str (s : string) : is_cstring (str s) = true.
Proof.
  unfold is_cstring, str, c_strlen.
  pose proof (scan_nul_terminated (list_ascii_of_string s)) as H.
  destruct (scan_nul (list_ascii_of_string s ++ [zero])); [reflexivity | contradiction].
Qed.

Lemma is_cstring_strlen (p : cptr) (n : nat) : c_strlen p = Some n -> is_cstring p = true.
Proof. intros H. unfold is_cstring. rewrite H. reflexivity. Qed.

Lemma readable_prefix_cstring (p : cptr) (n : Z) :
  is_cstring p = true -> readable_prefix p n = true.
Proof.
  intros H. destruct p as [b|]; [|discriminate].
  unfold readable_prefix. rewrite H. reflexivity.
Qed.

Lemma printf_cases (fmt : string) (args : list value) (w : world) :
  printf fmt args w =
  if printf_defined fmt args
  then Ret tt (advance [call_printf fmt args] 0 w)
  else Stop Undefined (advance [call_printf fmt args] 0 w).
Proof. unfold printf. rewrite record_call_advance. reflexivity. Qed.

Lemma strlen_cases (p : cptr) (w : world) :
  strlen p w =
  match c_strlen p with
  | Some n => Ret (Z.of_nat n) (advance [call_strlen p] 0 w)
  | None => Stop Undefined (advance [call_strlen p] 0 w)
  end.
Proof. unfold strlen. rewrite record_call_advance. reflexivity. Qed.

(** ** The job-connect case *)

Lemma ota_callback_job_connect_run (B : build) (E : env) (w : world)
      (cb : cy_ota_cb_struct_t) :
  reason cb = CY_OTA_REASON_STATE_CHANGE ->
  ota_agt_state cb = CY_OTA_STATE_JOB_CONNECT ->
  ota_callback B E (Some cb) w = job_connect_outcome E cb w.
Proof.
  intros Hr Hs. unfold ota_callback. rewrite callback_prologue_run, Hr, Hs.
  unfold job_connect_outcome, job_connect_invalid, target_print, error_print.
  rewrite bind_run, printf_run by reflexivity.
  rewrite bind_run.
  destruct (host_name (broker_server cb)) as [hb|] eqn:Hh.
  - destruct (port (broker_server cb) =? 0) eqn:Hp.
    + cbn [ret Monad_M]. rewrite ?bind_run, printf_run by reflexivity.
      cbn [ret Monad_M]. rewrite ?bind_run, printf_cases.
      change (printf_defined _ _) with
        (is_cstring (Some hb) && (is_cstring (file cb) && true)).
      rewrite andb_true_r, !advance_advance, <- !app_assoc.
      destruct (is_cstring (Some hb) && is_cstring (file cb)); reflexivity.
    + rewrite bind_run, strlen_cases.
      destruct (c_strlen (file cb)) as [[|n]|] eqn:Hf.
      * cbn [ret Monad_M Z.of_nat Z.eqb].
        rewrite ?bind_run, printf_run by reflexivity.
        cbn [ret Monad_M]. rewrite ?bind_run, printf_cases.
        change (printf_defined _ _) with
          (is_cstring (Some hb) && (is_cstring (file cb) && true)).
        rewrite andb_true_r, !advance_advance, <- !app_assoc.
        destruct (is_cstring (Some hb) && is_cstring (file cb)); reflexivity.
      * cbn [ret Monad_M].
        replace (Z.of_nat (S n) =? 0) with false
          by (symmetry; apply Z.eqb_neq; lia).
        rewrite ?bind_run. cbn [ret Monad_M]. rewrite ?bind_run, printf_cases.
        change (printf_defined _ _) with
          (is_cstring (Some hb) && (is_cstring (file cb) && true)).
        rewrite andb_true_r, !advance_advance, <- !app_assoc.
        destruct (is_cstring (Some hb) && is_cstring (file cb)); reflexivity.
      * rewrite !advance_advance, <- !app_assoc. reflexivity.
  - cbn [ret Monad_M]. rewrite ?bind_run, printf_run by reflexivity.
    cbn [ret Monad_M]. rewrite ?bind_run, printf_cases.
    change (printf_defined _ _) with
      (is_cstring None && (is_cstring (file cb) && true)).
    rewrite andb_true_r, !advance_advance, <- !app_assoc.
    destruct (is_cstring None && is_cstring (file cb)); reflexivity.
Qed.

(** ** What the event logger can return *)

Lemma returns_only_ret {A : Type} (P : A -> Prop) (a : A) :
  P a -> returns_only P (ret a).
Proof. intros H w a' w' Hrun. inversion Hrun. subst. exact H. Qed.

Lemma returns_only_bind {A C : Type} (Q : A -> Prop) (P : C -> Prop)
      (m : M A) (k : A -> M C) :
  returns_only Q m ->
  (forall a, Q a -> returns_only P (k a)) ->
  returns_only P (bind m k).
Proof.
  intros Hm Hk w c w' Hrun. rewrite bind_run in Hrun.
  destruct (m w) as [a w1|s w1] eqn:Hmw; [|discriminate].
  exact (Hk a (Hm w a w1 Hmw) w1 c w' Hrun).
Qed.

Lemma returns_only_then {A C : Type} (P : C -> Prop) (m : M A) (k : A -> M C) :
  (forall a, returns_only P (k a)) ->
  returns_only P (bind m k).
Proof.
  intros Hk. apply (returns_only_bind (fun _ => True)).
  - intros w a w' _. exact I.
  - intros a _. apply Hk.
Qed.

Ltac returns_continue :=
  repeat first
    [ apply returns_only_ret; reflexivity
    | apply returns_only_then; intro ].

Lemma job_connect_returns (cb : cy_ota_cb_struct_t)
      (k : cy_ota_callback_results_t -> M cy_ota_callback_results_t) :
  (forall r, continue_or_stop r -> returns_only continue_or_stop (k r)) ->
  returns_only continue_or_stop
    (invalid <- job_connect_invalid cb ;;
     cb_result <-
       (if invalid : bool then
          printf "ERROR in callback data: HTTP: server: %p port: %d topic: '%p'\n"
                 [VPtr (host_name (broker_server cb));
                  VInt (port (broker_server cb));
                  VPtr (file cb)] ;;
          ret CY_OTA_CB_RSLT_OTA_STOP
        else ret CY_OTA_CB_RSLT_OTA_CONTINUE) ;;
     k cb_result).
Proof.
  intros Hk. apply returns_only_then. intros invalid.
  apply (returns_only_bind continue_or_stop); [|exact Hk].
  destruct invalid.
  - apply returns_only_then. intros _. apply returns_only_ret. right. reflexivity.
  - apply returns_only_ret. left. reflexivity.
Qed.

Lemma ota_callback_returns_continue_or_stop (B : build) (E : env)
      (cb_data : option cy_ota_cb_struct_t) :
  returns_only continue_or_stop (ota_callback B E cb_data).
Proof.
  unfold ota_callback. destruct cb_data as [cb|].
  2:{ apply returns_only_ret. right. reflexivity. }
  do 4 (apply returns_only_then; intro).
  destruct (reason cb).
  2-5: repeat first [ apply returns_only_ret; left; reflexivity
                    | apply returns_only_then; intro ].
  destruct (ota_agt_state cb).
  10:{ apply returns_only_then. intros _. apply job_connect_returns.
       intros r Hr. apply returns_only_then. intros _.
       apply returns_only_ret. exact Hr. }
  all: repeat first [ apply returns_only_ret; left; reflexivity
                    | apply returns_only_then; intro ].
Qed.

Lemma ota_callback_returns_continue (B : build) (E : env) (cb : cy_ota_cb_struct_t) :
  reason cb <> CY_OTA_REASON_STATE_CHANGE \/
  ota_agt_state cb <> CY_OTA_STATE_JOB_CONNECT ->
  returns_only (eq CY_OTA_CB_RSLT_OTA_CONTINUE) (ota_callback B E (Some cb)).
Proof.
  intros H. unfold ota_callback.
  do 4 (apply returns_only_then; intro).
  destruct (reason cb); [|returns_continue..].
  destruct (ota_agt_state cb); try returns_continue.
  destruct H as [H|H]; contradiction H; reflexivity.
Qed.

Lemma reason_print_defined (fmt : string) (z : Z) (a b : string) :
  fmt = ">> APP CB OTA SUCCESS state:%d %s last_error:%s\n\n" \/
  fmt = ">> APP CB OTA FAILURE state:%d %s last_error:%s\n\n" ->
  printf_defined fmt [VInt z; VPtr (str a); VPtr (str b)] = true.
Proof.
  intros [H|H]; subst fmt;
    change (printf_defined _ _) with (is_cstring (str a) && (is_cstring (str b) && true));
    rewrite !is_cstring_str; reflexivity.
Qed.

Ltac run_callback :=
  unfold ota_callback; rewrite callback_prologue_run;
  cbn [reason ota_agt_state];
  repeat first
    [ rewrite bind_run
    | rewrite printf_run by reflexivity
    | rewrite printf_run by (apply reason_print_defined; auto)
    | rewrite advance_advance ];
  cbn [ret Monad_M app Nat.add].

(** C6. An event whose reason is not a state change, or whose state is
    none of the seven cases that format a string field of the record (so:
    every state without a case label, every empty case, every case that
    prints a fixed line, and the storage-write case), is answered with
    continue.  A state no case label matches leads to no call beyond the
    opening ones.  And whatever the argument, a value [ota_callback]
    returns is continue or stop. *)
Theorem ota_callback_default_continue (B : build) (E : env) (w : world)
        (cb : cy_ota_cb_struct_t) :
  reason cb <> CY_OTA_REASON_STATE_CHANGE \/
  formats_string_field (ota_agt_state cb) = false ->
  (exists w', ota_callback B E (Some cb) w = Ret CY_OTA_CB_RSLT_OTA_CONTINUE w') /\
  (forall v, reason cb = CY_OTA_REASON_STATE_CHANGE ->
             ota_agt_state cb = CY_OTA_STATE_other v ->
             ota_callback B E (Some cb) w =
             Ret CY_OTA_CB_RSLT_OTA_CONTINUE
                 (advance (callback_prologue E (CY_OTA_STATE_other v)) 0 w)) /\
  (forall cb_data w0 r w',
      ota_callback B E cb_data w0 = Ret r w' ->
      r = CY_OTA_CB_RSLT_OTA_CONTINUE \/ r = CY_OTA_CB_RSLT_OTA_STOP).
Proof.
  intros H. split; [|split].
  - destruct cb as [r st ts bw pct srv f j]. cbn [reason ota_agt_state] in H.
    destruct r.
    + destruct H as [H|H]; [contradiction H; reflexivity|].
      destruct st; try discriminate H;
        run_callback; eexists; reflexivity.
    + run_callback. eexists. reflexivity.
    + run_callback. eexists. reflexivity.
    + run_callback. eexists. reflexivity.
    + run_callback. eexists. reflexivity.
  - intros v Hr Hs. unfold ota_callback. rewrite callback_prologue_run, Hr, Hs.
    reflexivity.
  - intros cb_data w0 r w' Hrun.
    exact (ota_callback_returns_continue_or_stop B E cb_data w0 r w' Hrun).
Qed.

Lemma ota_callback_default_continue_witness :
  (reason (state_change (CY_OTA_STATE_other 99) NULL 0 NULL NULL 250 7 3)
     <> CY_OTA_REASON_STATE_CHANGE \/
   formats_string_field
     (ota_agt_state (state_change (CY_OTA_STATE_other 99) NULL 0 NULL NULL 250 7 3))
     = false) /\
  exists w',
    ota_callback sample_build (sample_env never_up)
      (Some (state_change (CY_OTA_STATE_other 99) NULL 0 NULL NULL 250 7 3))
      (boot sample_build)
    = Ret CY_OTA_CB_RSLT_OTA_CONTINUE w'.
Proof.
  split.
  - right. reflexivity.
  - exact (proj1 (ota_callback_default_continue
                    sample_build (sample_env never_up) (boot sample_build)
                    (state_change (CY_OTA_STATE_other 99) NULL 0 NULL NULL 250 7 3)
                    (or_intror eq_refl))).
Defined.

(** Under the strict contract of [printf]: at the job-connect state change
    with a null host, port 443 and file "/job.json", the run prints the
    validation error and then hands the null host to the [%s] of the target
    print, where it is undefined. *)
Theorem ota_callback_null_host_run (B : build) (E : env) (w : world) :
  let cb := state_change CY_OTA_STATE_JOB_CONNECT NULL 443 (str "/job.json") NULL 0 0 0 in
  ota_callback B E (Some cb) w =
  Stop Undefined
       (advance (callback_prologue E CY_OTA_STATE_JOB_CONNECT ++
                 [call_printf "APP CB OTA CONNECT FOR JOB using " [];
                  error_print cb;
                  target_print cb]) 0 w).
Proof.
  intros cb. rewrite ota_callback_job_connect_run by reflexivity. reflexivity.
Qed.

(** Where host and file are strings, the logger does return stop exactly on
    the job-connect state change with a zero port or an empty file. *)
Lemma ota_callback_stop_iff_on_strings (B : build) (E : env) (w : world)
      (cb : cy_ota_cb_struct_t) :
  is_cstring (host_name (broker_server cb)) = true ->
  is_cstring (file cb) = true ->
  (exists w', ota_callback B E (Some cb) w = Ret CY_OTA_CB_RSLT_OTA_STOP w') <->
  reason cb = CY_OTA_REASON_STATE_CHANGE /\
  ota_agt_state cb = CY_OTA_STATE_JOB_CONNECT /\
  (port (broker_server cb) = 0 \/ c_strlen (file cb) = Some 0%nat).
Proof.
  intros Hh Hf. split.
  - intros [w' Hrun].
    assert (Hr : reason cb = CY_OTA_REASON_STATE_CHANGE).
    { destruct (reason cb) eqn:Hr; [reflexivity|..];
        (assert (Hc : CY_OTA_CB_RSLT_OTA_CONTINUE = CY_OTA_CB_RSLT_OTA_STOP)
          by (apply (ota_callback_returns_continue B E cb) with (w := w) (w' := w');
              [left; rewrite Hr; discriminate | exact Hrun]);
         discriminate Hc). }
    assert (Hs : ota_agt_state cb = CY_OTA_STATE_JOB_CONNECT).
    { destruct (ota_agt_state cb) eqn:Hs; try reflexivity;
        (assert (Hc : CY_OTA_CB_RSLT_OTA_CONTINUE = CY_OTA_CB_RSLT_OTA_STOP)
          by (apply (ota_callback_returns_continue B E cb) with (w := w) (w' := w');
              [right; rewrite Hs; discriminate | exact Hrun]);
         discriminate Hc). }
    split; [exact Hr|]. split; [exact Hs|].
    rewrite ota_callback_job_connect_run in Hrun by assumption.
    unfold job_connect_outcome in Hrun. rewrite Hh, Hf in Hrun. cbn [andb] in Hrun.
    destruct (host_name (broker_server cb)); [|discriminate Hh].
    destruct (Z.eqb_spec (port (broker_server cb)) 0) as [Hp|Hp]; [left; exact Hp|].
    destruct (c_strlen (file cb)) as [[|n]|]; [right; reflexivity | | ]; discriminate Hrun.
  - intros (Hr & Hs & Hv).
    rewrite ota_callback_job_connect_run by assumption.
    unfold job_connect_outcome. rewrite Hh, Hf. cbn [andb].
    destruct (host_name (broker_server cb)); [|discriminate Hh].
    destruct Hv as [Hp|Hl].
    + rewrite Hp. cbn [Z.eqb]. eexists. reflexivity.
    + rewrite Hl. destruct (port (broker_server cb) =? 0); eexists; reflexivity.
Qed.

Lemma ends_with_call (t pre tr : list call) (x : call) :
  exists tr', t ++ (pre ++ tr ++ [x]) = t ++ tr' ++ [x].
Proof. exists (pre ++ tr). rewrite <- app_assoc. reflexivity. Qed.

(** C7. On every job-connect state change on which the validation can be
    evaluated (the host is null, or the port is zero, or the file is a
    string), the last call [ota_callback] makes is the print of the
    connection target, whether the validation failed or not.  With a null
    host that print receives the null pointer for [%s] and the run is
    undefined; so a run that returns had a host that is a string. *)
Theorem ota_callback_target_print_unconditional (B : build) (E : env) (w : world)
        (host f j : cptr) (p pct written total : Z) :
  let cb := state_change CY_OTA_STATE_JOB_CONNECT host p f j pct written total in
  let run := ota_callback B E (Some cb) w in
  (host = NULL \/ p = 0 \/ is_cstring f = true ->
   exists tr, trace (world_of run) = trace w ++ tr ++ [target_print cb]) /\
  (host = NULL ->
   run = Stop Undefined
              (advance (callback_prologue E CY_OTA_STATE_JOB_CONNECT ++
                        [call_printf "APP CB OTA CONNECT FOR JOB using " [];
                         error_print cb;
                         target_print cb]) 0 w)) /\
  (forall r w', run = Ret r w' -> host <> NULL /\ is_cstring host = true).
Proof.
  intros cb run. unfold run.
  rewrite ota_callback_job_connect_run by reflexivity.
  unfold job_connect_outcome.
  change (host_name (broker_server cb)) with host.
  change (port (broker_server cb)) with p.
  change (file cb) with f.
  split; [|split].
  - intros Hev.
    destruct host as [hb|].
    + destruct (Z.eqb_spec p 0) as [Hp|Hp].
      * destruct (is_cstring (Some hb) && is_cstring f);
          cbn [world_of advance trace]; apply ends_with_call.
      * destruct Hev as [Hev|[Hev|Hev]]; [discriminate Hev | contradiction | ].
        unfold is_cstring in Hev.
        destruct (c_strlen f) as [[|n]|] eqn:Hf; [ | | discriminate Hev];
          destruct (is_cstring (Some hb) && _);
          cbn [world_of advance trace]; apply ends_with_call.
    + cbn [world_of advance trace is_cstring c_strlen andb].
      apply ends_with_call.
  - intros Hnull. subst host. reflexivity.
  - intros r w' Hrun.
    destruct host as [hb|].
    + split; [discriminate|].
      destruct (is_cstring (Some hb)) eqn:Hh; [reflexivity|].
      cbn [andb] in Hrun.
      destruct (p =? 0); [discriminate Hrun|].
      destruct (c_strlen f) as [[|n]|]; discriminate Hrun.
    + discriminate Hrun.
Qed.

(** C8. In the job-parse and data-download cases [strlen] is applied to
    [json_doc] with no test before it, and data-download also formats
    [file] with [%s].  The logger returns, and then returns continue,
    exactly when [json_doc] (and, for data-download, [file]) is a
    NUL-terminated string; with a null [json_doc] the run is undefined at
    the call of [strlen] and no stop result is returned. *)
Theorem ota_callback_json_doc_unguarded (B : build) (E : env) (w : world)
        (host f j : cptr) (p pct written total : Z) :
  let parse :=
      ota_callback B E
        (Some (state_change CY_OTA_STATE_JOB_PARSE host p f j pct written total)) w in
  let download :=
      ota_callback B E
        (Some (state_change CY_OTA_STATE_DATA_DOWNLOAD host p f j pct written total)) w in
  let pre_parse := callback_prologue E CY_OTA_STATE_JOB_PARSE in
  let pre_download :=
      callback_prologue E CY_OTA_STATE_DATA_DOWNLOAD ++
      [call_printf "APP CB OTA DATA DOWNLOAD using " []] in
  parse =
    match c_strlen j with
    | Some n =>
      Ret CY_OTA_CB_RSLT_OTA_CONTINUE
          (advance (pre_parse ++
                    [call_strlen j;
                     call_printf "APP CB OTA PARSE JOB: '%.*s' \n"
                                 [VInt (Z.of_nat n); VPtr j]]) 0 w)
    | None => Stop Undefined (advance (pre_parse ++ [call_strlen j]) 0 w)
    end /\
  download =
    match c_strlen j with
    | Some n =>
      let w' := advance (pre_download ++
                         [call_strlen j;
                          call_printf "HTTP: '%.*s' " [VInt (Z.of_nat n); VPtr j];
                          call_printf "File: '%s'\n\n" [VPtr f]]) 0 w in
      if is_cstring f then Ret CY_OTA_CB_RSLT_OTA_CONTINUE w' else Stop Undefined w'
    | None => Stop Undefined (advance (pre_download ++ [call_strlen j]) 0 w)
    end /\
  ((exists r w', parse = Ret r w') <-> is_cstring j = true) /\
  ((exists r w', download = Ret r w') <-> is_cstring j = true /\ is_cstring f = true) /\
  (j = NULL ->
   parse = Stop Undefined (advance (pre_parse ++ [call_strlen NULL]) 0 w) /\
   download = Stop Undefined (advance (pre_download ++ [call_strlen NULL]) 0 w)).
Proof.
  intros parse download pre_parse pre_download.
  assert (Hparse : parse =
    match c_strlen j with
    | Some n =>
      Ret CY_OTA_CB_RSLT_OTA_CONTINUE
          (advance (pre_parse ++
                    [call_strlen j;
                     call_printf "APP CB OTA PARSE JOB: '%.*s' \n"
                                 [VInt (Z.of_nat n); VPtr j]]) 0 w)
    | None => Stop Undefined (advance (pre_parse ++ [call_strlen j]) 0 w)
    end).
  { unfold parse, ota_callback. rewrite callback_prologue_run.
    cbn [reason ota_agt_state state_change json_doc].
    rewrite bind_run, strlen_cases.
    destruct (c_strlen j) as [n|] eqn:Hj.
    - rewrite bind_run, printf_cases.
      change (printf_defined _ _) with (readable_prefix j (Z.of_nat n) && true).
      rewrite readable_prefix_cstring by (apply (is_cstring_strlen j n Hj)).
      cbn [andb ret Monad_M]. rewrite !advance_advance. reflexivity.
    - rewrite advance_advance. reflexivity. }
  assert (Hdownload : download =
    match c_strlen j with
    | Some n =>
      let w' := advance (pre_download ++
                         [call_strlen j;
                          call_printf "HTTP: '%.*s' " [VInt (Z.of_nat n); VPtr j];
                          call_printf "File: '%s'\n\n" [VPtr f]]) 0 w in
      if is_cstring f then Ret CY_OTA_CB_RSLT_OTA_CONTINUE w' else Stop Undefined w'
    | None => Stop Undefined (advance (pre_download ++ [call_strlen j]) 0 w)
    end).
  { unfold download, ota_callback. rewrite callback_prologue_run.
    cbn [reason ota_agt_state state_change json_doc file].
    rewrite bind_run, printf_run by reflexivity.
    rewrite bind_run, strlen_cases.
    destruct (c_strlen j) as [n|] eqn:Hj.
    - rewrite bind_run, printf_cases.
      change (printf_defined "HTTP: '%.*s' " _)
        with (readable_prefix j (Z.of_nat n) && true).
      rewrite readable_prefix_cstring by (apply (is_cstring_strlen j n Hj)).
      cbn [andb]. rewrite bind_run, printf_cases.
      change (printf_defined "File: '%s'\n\n" _) with (is_cstring f && true).
      rewrite andb_true_r, !advance_advance, <- ?app_assoc.
      destruct (is_cstring f); reflexivity.
    - rewrite !advance_advance, <- ?app_assoc. reflexivity. }
  split; [exact Hparse|]. split; [exact Hdownload|].
  rewrite Hparse, Hdownload. unfold is_cstring at 1 3.
  split; [|split].
  - destruct (c_strlen j); split; intros H.
    + reflexivity.
    + eexists. eexists. reflexivity.
    + destruct H as (r & w' & H). discriminate H.
    + discriminate H.
  - destruct (c_strlen j); cbv zeta; destruct (is_cstring f); split; intros H;
      try (destruct H as (r & w' & H); discriminate H);
      try (destruct H as (H1 & H2); discriminate);
      try (split; reflexivity);
      try (eexists; eexists; reflexivity).
  - intros Hnull. subst j. split; reflexivity.
Qed.

(** ** The task *)

Lemma store_context_advance (g : gvar) (h : Z) (tr : list call) (n : nat) (w : world) :
  advance tr n (store_context g h w) = store_context g h (advance tr n w).
Proof. destruct g; reflexivity. Qed.

Lemma ret_run {A : Type} (a : A) (w : world) : (ret a : M A) w = Ret a w.
Proof. reflexivity. Qed.

Lemma ota_task_run (B : build) (E : env) (w : world) :
  ota_task B E w = ota_task_outcome B E w.
Proof.
  unfold ota_task, ota_task_outcome.
  rewrite bind_run. unfold cy_ota_storage_init. rewrite call_out_run.
  rewrite bind_run.
  destruct (CY_RSLT_SUCCESS B =? storage_init_result E) eqn:H1; cbn [negb when].
  2:{ rewrite bind_run, printf_run by reflexivity.
      rewrite CY_ASSERT_0_run, !advance_advance. reflexivity. }
  rewrite ret_run, bind_run.
  assert (Hv :
    (if TEST_REVERT B then ret tt
     else
       r <- cy_ota_storage_image_validate E APP_ID ;;
       when (negb (CY_RSLT_SUCCESS B =? r))
            (printf "\n Failed to validate the update.\n" [] ;; CY_ASSERT 0))
      (advance [call_cy_ota_storage_init] 0 w) =
    if negb (TEST_REVERT B) &&
       negb (CY_RSLT_SUCCESS B =? image_validate_result E APP_ID)
    then Stop Halted
              (advance ([call_cy_ota_storage_init;
                         call_cy_ota_storage_image_validate APP_ID] ++
                        [call_printf "\n Failed to validate the update.\n" [];
                         call_CY_ASSERT 0]) 0 w)
    else Ret tt (advance (call_cy_ota_storage_init ::
                          (if TEST_REVERT B then []
                           else [call_cy_ota_storage_image_validate APP_ID])) 0 w)).
  { destruct (TEST_REVERT B); cbn [negb andb].
    - reflexivity.
    - rewrite bind_run. unfold cy_ota_storage_image_validate. rewrite call_out_run.
      destruct (CY_RSLT_SUCCESS B =? image_validate_result E APP_ID);
        cbn [negb when].
      + rewrite ret_run, advance_advance. reflexivity.
      + rewrite bind_run, printf_run by reflexivity.
        rewrite CY_ASSERT_0_run, !advance_advance. reflexivity. }
  rewrite Hv. clear Hv.
  destruct (negb (TEST_REVERT B) &&
            negb (CY_RSLT_SUCCESS B =? image_validate_result E APP_ID));
    [reflexivity|].
  rewrite bind_run, ethernet_connect_run.
  destruct (ethernet_connect_outcome B E _) as [r w1|s w1]; [|reflexivity].
  rewrite bind_run.
  destruct (CY_RSLT_SUCCESS B =? r); cbn [negb when].
  2:{ rewrite bind_run, printf_run by reflexivity.
      rewrite CY_ASSERT_0_run, !advance_advance. reflexivity. }
  rewrite ret_run.
  rewrite bind_run. unfold cy_awsport_network_init. rewrite call_out_run.
  rewrite bind_run.
  destruct (CY_RSLT_SUCCESS B =? network_init_result E); cbn [negb when].
  2:{ rewrite bind_run, printf_run by reflexivity.
      rewrite CY_ASSERT_0_run, !advance_advance. reflexivity. }
  rewrite ret_run.
  rewrite bind_run. unfold cy_ota_agent_start.
  rewrite (Z.eqb_sym (agent_start_result E)).
  destruct (CY_RSLT_SUCCESS B =? agent_start_result E) eqn:H5; cbn [negb when].
  - rewrite bind_run, H5. cbn [negb when]. rewrite ret_run.
    unfold vTaskSuspend_NULL, agent_start_call.
    rewrite !record_call_advance, <- !store_context_advance, !advance_advance.
    reflexivity.
  - rewrite bind_run, H5. cbn [negb when].
    rewrite bind_run, printf_run by reflexivity.
    rewrite CY_ASSERT_0_run, !record_call_advance, !advance_advance. reflexivity.
Qed.

Lemma steps_begun_app (a b : list call) :
  steps_begun (a ++ b) = steps_begun a ++ steps_begun b.
Proof.
  induction a as [|c a IH]; [reflexivity|].
  cbn [app steps_begun]. destruct (step_of_call c); rewrite IH; reflexivity.
Qed.

Lemma loop_calls_quiet (B : build) (E : env) (n c : nat) :
  steps_begun (loop_calls B E c n) = [] /\
  count is_assert (loop_calls B E c n) = 0%nat.
Proof.
  revert c. induction n as [|n IH]; intros c; [split; reflexivity|].
  cbn [loop_calls].
  destruct (CY_RSLT_SUCCESS B =? ecm_connect_result E c); [split; reflexivity|].
  destruct (IH (S c)) as [H1 H2].
  rewrite steps_begun_app, count_app, H1, H2. split; reflexivity.
Qed.

Lemma loop_exit_inl (B : build) (E : env) (n c : nat) (result r : Z) :
  loop_exit B E c n result = inl r ->
  r = CY_RSLT_SUCCESS B /\ some_attempt_succeeds B E c n = true.
Proof.
  revert c result. induction n as [|n IH]; intros c result H; [discriminate H|].
  unfold some_attempt_succeeds in *. cbn [loop_exit seq existsb] in *.
  destruct (Z.eqb_spec (CY_RSLT_SUCCESS B) (ecm_connect_result E c)) as [Heq|Hne].
  - inversion H. split; [symmetry; exact Heq | reflexivity].
  - exact (IH (S c) _ H).
Qed.

Lemma loop_exit_inr (B : build) (E : env) (n c : nat) (result r : Z) :
  loop_exit B E c n result = inr r ->
  some_attempt_succeeds B E c n = false /\
  ((CY_RSLT_SUCCESS B =? result) = false \/ n <> 0%nat ->
   (CY_RSLT_SUCCESS B =? r) = false).
Proof.
  revert c result. induction n as [|n IH]; intros c result H.
  - inversion H. subst r. split; [reflexivity|].
    intros [Hres|Hn]; [exact Hres | contradiction].
  - unfold some_attempt_succeeds in *. cbn [loop_exit seq existsb] in *.
    destruct (CY_RSLT_SUCCESS B =? ecm_connect_result E c) eqn:Hc; [discriminate H|].
    destruct (IH (S c) _ H) as [Hnone Hr].
    split; [exact Hnone|]. intros _. apply Hr. left. exact Hc.
Qed.

Lemma ends_in_single (x : call) : ends_in x [x].
Proof. exists []. reflexivity. Qed.

Lemma ends_in_cons (x c : call) (l : list call) : ends_in x l -> ends_in x (c :: l).
Proof. intros [tr0 H]. exists (c :: tr0). rewrite H. reflexivity. Qed.

Lemma ends_in_app (x : call) (a b : list call) : ends_in x b -> ends_in x (a ++ b).
Proof. intros [tr0 H]. exists (a ++ tr0). rewrite H, app_assoc. reflexivity. Qed.

Ltac ends :=
  repeat first
    [ assumption | apply ends_in_single | apply ends_in_cons | apply ends_in_app ].

Ltac use_answers :=
  repeat match goal with
         | H : _ = true |- _ => rewrite H
         | H : _ = false |- _ => rewrite H
         end.

Ltac use_facts :=
  repeat match goal with
         | H : steps_begun _ = _ |- _ => rewrite H
         | H : count _ _ = _ |- _ => rewrite H
         end.

(** [ethernet_connect] as a step of the task: after the calls [begun] it
    adds calls that begin the link step only, and either halts on a failed
    initialisation or returns success exactly when the step succeeds. *)
Lemma ethernet_connect_as_step (B : build) (E : env) (w : world) (begun : list call) :
  exists tr1 n,
    ((ethernet_connect_outcome B E (advance begun 0 w) =
        Stop Halted (advance (begun ++ tr1) n w) /\
      (CY_RSLT_SUCCESS B =? ecm_init_result E) &&
      (CY_RSLT_SUCCESS B =? ethif_init_result E) = false /\
      ends_in (call_CY_ASSERT 0) tr1) \/
     (exists r, ethernet_connect_outcome B E (advance begun 0 w) =
                  Ret r (advance (begun ++ tr1) n w) /\
                (CY_RSLT_SUCCESS B =? r) =
                (CY_RSLT_SUCCESS B =? ecm_init_result E) &&
                (CY_RSLT_SUCCESS B =? ethif_init_result E) &&
                some_attempt_succeeds B E (ecm_connects w) 10 /\
                count is_assert tr1 = 0%nat)) /\
    steps_begun tr1 = [link_bring_up].
Proof.
  unfold ethernet_connect_outcome.
  cbn [ecm_connects advance]. rewrite Nat.add_0_r.
  destruct (CY_RSLT_SUCCESS B =? ecm_init_result E) eqn:Hi; cbn [negb andb].
  2:{ rewrite advance_advance. eexists. eexists. split.
      - left. split; [reflexivity|]. split; [reflexivity|]. ends.
      - reflexivity. }
  destruct (CY_RSLT_SUCCESS B =? ethif_init_result E) eqn:He; cbn [negb andb].
  2:{ rewrite advance_advance. eexists. eexists. split.
      - left. split; [reflexivity|]. split; [reflexivity|]. ends.
      - reflexivity. }
  change (Z.to_nat MAX_CONNECTION_RETRIES) with 10%nat.
  destruct (loop_exit B E (ecm_connects w) 10 (ethif_init_result E))
    as [r|r] eqn:Hx.
  - destruct (loop_exit_inl B E _ _ _ _ Hx) as [Hr Hsome].
    rewrite advance_advance. eexists. eexists. split.
    + right. exists r. split; [reflexivity|].
      split; [rewrite Hsome, Hr; apply Z.eqb_refl|].
      rewrite !count_app, (proj2 (loop_calls_quiet _ _ _ _)). reflexivity.
    + rewrite !steps_begun_app, (proj1 (loop_calls_quiet _ _ _ _)). reflexivity.
  - destruct (loop_exit_inr B E _ _ _ _ Hx) as [Hnone Hr].
    rewrite advance_advance. eexists. eexists. split.
    + right. exists r. split; [reflexivity|].
      split; [rewrite Hnone; apply Hr; right; discriminate|].
      rewrite !count_app, (proj2 (loop_calls_quiet _ _ _ _)). reflexivity.
    + rewrite !steps_begun_app, (proj1 (loop_calls_quiet _ _ _ _)). reflexivity.
Qed.

Lemma count_cons (p : call -> bool) (c : call) (l : list call) :
  count p (c :: l) = ((if p c then 1 else 0) + count p l)%nat.
Proof. unfold count. cbn [filter]. destruct (p c); reflexivity. Qed.

(** Settles one way through [ota_task]: the run, its trace, the steps begun
    and the last call. *)
Ltac settle_path :=
  rewrite ?advance_advance;
  unfold plan, step_succeeds;
  cbn [forallb until_first_failure app andb];
  use_answers;
  cbn [forallb until_first_failure app andb];
  eexists; eexists;
  split; [reflexivity|];
  split; [cbn [trace advance store_context]; reflexivity|];
  split;
  [ rewrite ?steps_begun_app; cbn [steps_begun step_of_call];
    rewrite ?steps_begun_app; use_facts; reflexivity | ];
  split;
  [ first [ discriminate | intros _; ends ]
  | first [ discriminate
          | intros _; split;
            [ rewrite ?count_app, ?count_cons, ?count_app; cbn [is_assert];
              use_facts; reflexivity
            | ends ] ] ].

(** C5. [ota_task] begins the steps in the order storage-init, post-revert
    validation (unless compiled out), link bring-up, secure-transport
    bootstrap, agent launch, and begins no step after the first that
    fails: there it halts, its last call the failed assertion.  When every
    step succeeds it makes no assertion and ends parked by
    [vTaskSuspend(NULL)]. *)
Theorem ota_task_sequence (B : build) (E : env) (w : world) :
  let ok := step_succeeds B E (ecm_connects w) in
  exists w' tr,
    ota_task B E w =
      Stop (if forallb ok (plan B) then Suspended else Halted) w' /\
    trace w' = trace w ++ tr /\
    steps_begun tr = until_first_failure ok (plan B) /\
    (forallb ok (plan B) = false -> ends_in (call_CY_ASSERT 0) tr) /\
    (forallb ok (plan B) = true ->
     count is_assert tr = 0%nat /\ ends_in call_vTaskSuspend_NULL tr).
Proof.
  intros ok. unfold ok. clear ok.
  rewrite ota_task_run. unfold ota_task_outcome.
  destruct (CY_RSLT_SUCCESS B =? storage_init_result E) eqn:H1; cbn [negb];
    [|settle_path].
  destruct (TEST_REVERT B) eqn:HT; cbn [negb andb].
  - destruct (ethernet_connect_as_step B E w [call_cy_ota_storage_init])
      as (tr1 & n & [(Hrun & Hinit & Hend)|(r & Hrun & Hr & Hcnt)] & Hsteps);
      rewrite Hrun; [settle_path|].
    destruct (CY_RSLT_SUCCESS B =? r) eqn:Hrr; symmetry in Hr; cbn [negb];
      [|settle_path].
    destruct (CY_RSLT_SUCCESS B =? network_init_result E) eqn:H4; cbn [negb];
      [|settle_path].
    destruct (CY_RSLT_SUCCESS B =? agent_start_result E) eqn:H5; cbn [negb];
      settle_path.
  - destruct (CY_RSLT_SUCCESS B =? image_validate_result E APP_ID) eqn:H2;
      cbn [negb]; [|settle_path].
    destruct (ethernet_connect_as_step B E w
                [call_cy_ota_storage_init; call_cy_ota_storage_image_validate APP_ID])
      as (tr1 & n & [(Hrun & Hinit & Hend)|(r & Hrun & Hr & Hcnt)] & Hsteps);
      rewrite Hrun; [settle_path|].
    destruct (CY_RSLT_SUCCESS B =? r) eqn:Hrr; symmetry in Hr; cbn [negb];
      [|settle_path].
    destruct (CY_RSLT_SUCCESS B =? network_init_result E) eqn:H4; cbn [negb];
      [|settle_path].
    destruct (CY_RSLT_SUCCESS B =? agent_start_result E) eqn:H5; cbn [negb];
      settle_path.
Qed.

(** ** The globals *)

Lemma keeps_globals_ret {A : Type} (a : A) : keeps_globals (ret a : M A).
Proof. intros w. split; reflexivity. Qed.

Lemma keeps_globals_bind {A C : Type} (m : M A) (k : A -> M C) :
  keeps_globals m -> (forall a, keeps_globals (k a)) -> keeps_globals (bind m k).
Proof.
  intros Hm Hk w. rewrite bind_run. specialize (Hm w).
  destruct (m w) as [a w1|s w1]; cbn [world_of] in *.
  - destruct (Hk a w1) as [H1 H2]. destruct Hm as [H3 H4].
    rewrite H1, H2. split; assumption.
  - exact Hm.
Qed.

Lemma keeps_globals_printf (fmt : string) (args : list value) :
  keeps_globals (printf fmt args).
Proof.
  intros w. unfold printf. destruct (printf_defined fmt args); split; reflexivity.
Qed.

Lemma keeps_globals_strlen (p : cptr) : keeps_globals (strlen p).
Proof.
  intros w. unfold strlen. destruct (c_strlen p); split; reflexivity.
Qed.

Lemma keeps_globals_call_out {A : Type} (c : call) (a : A) :
  keeps_globals (call_out c a).
Proof. intros w. split; reflexivity. Qed.

Create HintDb frame.

#[local] Hint Resolve keeps_globals_ret keeps_globals_printf keeps_globals_strlen
  keeps_globals_call_out : frame.

Ltac frame :=
  repeat first
    [ solve [auto with frame]
    | apply keeps_globals_bind; [|intro]
    | match goal with
      | |- keeps_globals (if ?b then _ else _) => destruct b
      | |- keeps_globals (match ?x with _ => _ end) => destruct x
      end ].

Lemma keeps_globals_ota_callback (B : build) (E : env)
      (cb_data : option cy_ota_cb_struct_t) :
  keeps_globals (ota_callback B E cb_data).
Proof.
  unfold ota_callback, job_connect_invalid, cy_ota_get_state_string,
    cy_ota_get_last_error, cy_ota_get_error_string, print_heap_usage.
  frame.
Qed.

Lemma keeps_globals_ethernet_connect (B : build) (E : env) :
  keeps_globals (ethernet_connect B E).
Proof.
  intros w. rewrite ethernet_connect_run. unfold ethernet_connect_outcome.
  destruct (negb _); [split; reflexivity|].
  destruct (negb _); [split; reflexivity|].
  cbv zeta. destruct (loop_exit _ _ _ _ _); split; reflexivity.
Qed.

Lemma keeps_globals_config {A : Type} (m : M A) (w : world) :
  keeps_globals m -> config (world_of (m w)) = config w.
Proof. intros H. unfold config. rewrite (proj1 (H w)). reflexivity. Qed.

Lemma last_two_here (x y z : call) : exists tr, [x; y; z] = tr ++ [y; z].
Proof. exists [x]. reflexivity. Qed.

Lemma last_two_cons (c y z : call) (l : list call) :
  (exists tr, l = tr ++ [y; z]) -> exists tr, c :: l = tr ++ [y; z].
Proof. intros [tr H]. exists (c :: tr). rewrite H. reflexivity. Qed.

Lemma last_two_app (y z : call) (a l : list call) :
  (exists tr, l = tr ++ [y; z]) -> exists tr, a ++ l = tr ++ [y; z].
Proof. intros [tr H]. exists (a ++ tr). rewrite H, app_assoc. reflexivity. Qed.

(** ** The null event record *)

Lemma extends_trace_ret {A : Type} (a : A) : extends_trace (ret a : M A).
Proof. intros w. exists []. cbn. rewrite app_nil_r. reflexivity. Qed.

Lemma extends_trace_bind {A C : Type} (m : M A) (k : A -> M C) :
  extends_trace m -> (forall a, extends_trace (k a)) -> extends_trace (bind m k).
Proof.
  intros Hm Hk w. rewrite bind_run. destruct (Hm w) as [t1 H1].
  destruct (m w) as [a w1|s w1]; cbn [world_of] in *.
  - destruct (Hk a w1) as [t2 H2]. exists (t1 ++ t2).
    rewrite H2, H1, app_assoc. reflexivity.
  - exists t1. exact H1.
Qed.

Lemma extends_trace_printf (fmt : string) (args : list value) :
  extends_trace (printf fmt args).
Proof.
  intros w. exists [call_printf fmt args]. unfold printf.
  destruct (printf_defined fmt args); reflexivity.
Qed.

Lemma extends_trace_strlen (p : cptr) : extends_trace (strlen p).
Proof.
  intros w. exists [call_strlen p]. unfold strlen.
  destruct (c_strlen p); reflexivity.
Qed.

#[local] Hint Resolve extends_trace_ret extends_trace_printf extends_trace_strlen
  : frame.

Ltac grows :=
  repeat first
    [ solve [auto with frame]
    | apply extends_trace_bind; [|intro]
    | match goal with
      | |- extends_trace (if ?b then _ else _) => destruct b
      | |- extends_trace (match ?x with _ => _ end) => destruct x
      end ].

(** C2. Handed the null pointer, [ota_callback] returns the stop result at
    once: the world is left as it was, so nothing was decoded, printed or
    dispatched on.  It is the null test that does this: on any record the
    run starts with the two lookups and the heap report. *)
Theorem ota_callback_null_is_stop (B : build) (E : env) (w : world) :
  ota_callback B E None w = Ret CY_OTA_CB_RSLT_OTA_STOP w /\
  (forall cb, exists tr,
      trace (world_of (ota_callback B E (Some cb) w)) =
      trace w ++ callback_prologue E (ota_agt_state cb) ++ tr).
Proof.
  split; [reflexivity|].
  intros cb. unfold ota_callback. rewrite callback_prologue_run.
  match goal with
  | |- exists tr, trace (world_of (?k ?w1)) = _ =>
    assert (Hk : extends_trace k) by (unfold job_connect_invalid; grows);
    destruct (Hk w1) as [tr Htr]; exists tr; rewrite Htr
  end.
  cbn [trace advance]. rewrite app_assoc. reflexivity.
Qed.

(** ** The scenarios of the contract, run *)

Example job_connect_valid_target_continues :
  let cb := state_change CY_OTA_STATE_JOB_CONNECT (str "update.example.com") 443
                         (str "/job.json") NULL 0 0 0 in
  let run := ota_callback sample_build (sample_env never_up) (Some cb)
                          (boot sample_build) in
  returned run = Some CY_OTA_CB_RSLT_OTA_CONTINUE /\
  List.last (trace (world_of run)) call_vTaskSuspend_NULL = target_print cb.
Proof. vm_compute. split; reflexivity. Qed.

Example job_connect_zero_port_stops :
  returned
    (ota_callback sample_build (sample_env never_up)
       (Some (state_change CY_OTA_STATE_JOB_CONNECT (str "update.example.com") 0
                           (str "/job.json") NULL 0 0 0))
       (boot sample_build))
  = Some CY_OTA_CB_RSLT_OTA_STOP.
Proof. vm_compute. reflexivity. Qed.

Example bring_up_parks_the_task :
  let run := ota_task sample_build (sample_env up_at_fourth) (boot sample_build) in
  stopped run = Some Suspended /\
  ecm_connects (world_of run) = 4%nat /\
  ota_context (mem (world_of run)) = 4096 /\
  writes (world_of run) = [g_ota_context].
Proof. vm_compute. repeat split. Qed.

(** ** More on link bring-up *)

Lemma loop_calls_census (B : build) (E : env) (n c : nat) :
  count is_connect (loop_calls B E c n) = loop_connects B E c n /\
  (loop_connects B E c n <= n)%nat /\
  (count is_delay (loop_calls B E c n) <= loop_connects B E c n)%nat /\
  forallb (loop_call_as_written B E) (loop_calls B E c n) = true /\
  count is_ethif_init (loop_calls B E c n) = 0%nat /\
  count is_agent_start (loop_calls B E c n) = 0%nat /\
  count is_network_init (loop_calls B E c n) = 0%nat /\
  count is_image_validate (loop_calls B E c n) = 0%nat.
Proof.
  revert c. induction n as [|n IH]; intros c.
  - repeat split; try reflexivity; cbn; lia.
  - cbn [loop_calls loop_connects].
    destruct (CY_RSLT_SUCCESS B =? ecm_connect_result E c).
    + repeat split; try reflexivity; cbn; lia.
    + destruct (IH (S c)) as (H1 & H2 & H3 & H4 & H5 & H6 & H7 & H8).
      rewrite !count_app, forallb_app, H1, H4, H5, H6, H7, H8.
      cbn [failed_attempt forallb loop_call_as_written andb].
      rewrite !Z.eqb_refl. cbn.
      repeat split; try reflexivity; lia.
Qed.

(** X1. A failure of [cy_ecm_init] or of [cy_ecm_ethif_init] is not
    retried: [ethernet_connect] halts at the assertion without a single
    connection attempt or delay, and when it is [cy_ecm_init] that failed
    the interface is never initialised. *)
Theorem ethernet_connect_init_failure_halts (B : build) (E : env) (w : world) :
  ecm_init_result E <> CY_RSLT_SUCCESS B \/
  ethif_init_result E <> CY_RSLT_SUCCESS B ->
  exists tr,
    ethernet_connect B E w = Stop Halted (advance tr 0 w) /\
    ends_in (call_CY_ASSERT 0) tr /\
    count is_connect tr = 0%nat /\
    count is_delay tr = 0%nat /\
    (ecm_init_result E <> CY_RSLT_SUCCESS B -> count is_ethif_init tr = 0%nat).
Proof.
  intros Hfail. rewrite ethernet_connect_run. unfold ethernet_connect_outcome.
  destruct (Z.eqb_spec (CY_RSLT_SUCCESS B) (ecm_init_result E)) as [H1|H1];
    cbn [negb].
  - destruct (Z.eqb_spec (CY_RSLT_SUCCESS B) (ethif_init_result E)) as [H2|H2];
      cbn [negb].
    + destruct Hfail as [H|H]; contradiction H; symmetry; assumption.
    + eexists. split; [reflexivity|]. split; [unfold link_init_calls; ends|].
      split; [reflexivity|]. split; [reflexivity|].
      intros H. contradiction H. symmetry. exact H1.
  - eexists. split; [reflexivity|]. split; [ends|].
    repeat split; reflexivity.
Qed.

Lemma ethernet_connect_init_failure_halts_witness :
  (ecm_init_result manager_down <> CY_RSLT_SUCCESS sample_build \/
   ethif_init_result manager_down <> CY_RSLT_SUCCESS sample_build) /\
  exists tr,
    ethernet_connect sample_build manager_down (boot sample_build)
    = Stop Halted (advance tr 0 (boot sample_build)).
Proof.
  assert (H : ecm_init_result manager_down <> CY_RSLT_SUCCESS sample_build)
    by discriminate.
  split; [left; exact H|].
  destruct (ethernet_connect_init_failure_halts
              sample_build manager_down (boot sample_build) (or_introl H))
    as (tr & Hrun & _).
  exists tr. exact Hrun.
Defined.

(** X2. Whatever the environment answers, one run of [ethernet_connect]
    calls [cy_ecm_connect] at most ten times and delays at most once per
    attempt; every delay is the fixed [pdMS_TO_TICKS(500)] and every
    attempt uses the handle that [cy_ecm_ethif_init] answered. *)
Theorem ethernet_connect_bounded (B : build) (E : env) (w : world) :
  exists tr n,
    world_of (ethernet_connect B E w) = advance tr n w /\
    count is_connect tr = n /\
    (n <= 10)%nat /\
    (count is_delay tr <= n)%nat /\
    forallb (loop_call_as_written B E) tr = true.
Proof.
  rewrite ethernet_connect_run. unfold ethernet_connect_outcome.
  destruct (negb (CY_RSLT_SUCCESS B =? ecm_init_result E)).
  { eexists. exists 0%nat. split; [reflexivity|].
    repeat split; try first [reflexivity | unfold count; cbn; lia]. }
  destruct (negb (CY_RSLT_SUCCESS B =? ethif_init_result E)).
  { eexists. exists 0%nat. split; [reflexivity|].
    repeat split; try first [reflexivity | unfold count; cbn; lia]. }
  cbv zeta. change (Z.to_nat MAX_CONNECTION_RETRIES) with 10%nat.
  destruct (loop_calls_census B E 10 (ecm_connects w))
    as (H1 & H2 & H3 & H4 & _).
  assert (L1 : count is_connect (link_init_calls B) = 0%nat) by reflexivity.
  assert (L2 : count is_delay (link_init_calls B) = 0%nat) by reflexivity.
  assert (L3 : forallb (loop_call_as_written B E) (link_init_calls B) = true)
    by reflexivity.
  destruct (loop_exit B E (ecm_connects w) 10 (ethif_init_result E));
    eexists; eexists; (split; [cbn [world_of]; reflexivity|]);
    rewrite !count_app, !forallb_app, H1, H4, L1, L2, L3;
    repeat split; try reflexivity; try assumption;
    try (change (count is_connect [_]) with 0%nat);
    try (change (count is_delay [_]) with 0%nat); lia.
Qed.

Lemma loop_exit_answer (B : build) (E : env) (n c : nat) (result r : Z) :
  loop_exit B E c n result = inl r \/
  (loop_exit B E c n result = inr r /\ n <> 0%nat) ->
  exists k, (k < n)%nat /\ r = ecm_connect_result E (c + k).
Proof.
  revert c result. induction n as [|n IH]; intros c result H.
  - destruct H as [H|[_ H]]; [discriminate H | contradiction].
  - cbn [loop_exit] in H.
    destruct (CY_RSLT_SUCCESS B =? ecm_connect_result E c).
    + destruct H as [H|[H _]]; [|discriminate H].
      inversion H. exists 0%nat. split; [lia|]. rewrite Nat.add_0_r. reflexivity.
    + destruct n as [|m].
      * cbn [loop_exit] in H. destruct H as [H|[H _]]; [discriminate H|].
        inversion H. exists 0%nat. split; [lia|]. rewrite Nat.add_0_r. reflexivity.
      * destruct (IH (S c) (ecm_connect_result E c)) as (k & Hk & Hr).
        { destruct H as [H|[H _]]; [left; exact H | right; split; [exact H | lia]]. }
        exists (S k). split; [lia|].
        replace (c + S k)%nat with (S c + k)%nat by lia. exact Hr.
Qed.

(** X3. A value [ethernet_connect] returns is always the answer of one of
    its (at most ten) calls of [cy_ecm_connect], never the placeholder
    [result] was initialised with or the result of an initialisation; it is
    success exactly when one of the ten attempts succeeds, and a run only
    returns when both initialisations succeeded. *)
Theorem ethernet_connect_result (B : build) (E : env) (w : world) (r : Z) (w' : world) :
  ethernet_connect B E w = Ret r w' ->
  ecm_init_result E = CY_RSLT_SUCCESS B /\
  ethif_init_result E = CY_RSLT_SUCCESS B /\
  (exists k, (k < 10)%nat /\ r = ecm_connect_result E (ecm_connects w + k)) /\
  (r = CY_RSLT_SUCCESS B <-> some_attempt_succeeds B E (ecm_connects w) 10 = true).
Proof.
  rewrite ethernet_connect_run. unfold ethernet_connect_outcome.
  destruct (Z.eqb_spec (CY_RSLT_SUCCESS B) (ecm_init_result E)) as [H1|H1];
    cbn [negb]; [|discriminate].
  destruct (Z.eqb_spec (CY_RSLT_SUCCESS B) (ethif_init_result E)) as [H2|H2];
    cbn [negb]; [|discriminate].
  cbv zeta. change (Z.to_nat MAX_CONNECTION_RETRIES) with 10%nat.
  destruct (loop_exit B E (ecm_connects w) 10 (ethif_init_result E))
    as [r0|r0] eqn:Hx; intros Hrun; inversion Hrun; subst r0.
  - destruct (loop_exit_inl B E _ _ _ _ Hx) as [Hr Hsome].
    split; [symmetry; exact H1|]. split; [symmetry; exact H2|].
    split; [apply (loop_exit_answer B E 10 _ (ethif_init_result E)); left; exact Hx|].
    rewrite Hsome. split; intros _; [reflexivity | exact Hr].
  - destruct (loop_exit_inr B E _ _ _ _ Hx) as [Hnone Hr].
    split; [symmetry; exact H1|]. split; [symmetry; exact H2|].
    split; [apply (loop_exit_answer B E 10 _ (ethif_init_result E)); right;
            split; [exact Hx | discriminate]|].
    rewrite Hnone. split; intros H; [|discriminate H].
    assert (Hne : (CY_RSLT_SUCCESS B =? r) = false) by (apply Hr; right; discriminate).
    rewrite H, Z.eqb_refl in Hne. discriminate Hne.
Qed.

Lemma ethernet_connect_result_witness :
  ethernet_connect sample_build (sample_env up_at_fourth) (boot sample_build)
    = Ret 0 (advance (link_init_calls sample_build ++
                      loop_calls sample_build (sample_env up_at_fourth) 0 10) 4
                     (boot sample_build)) /\
  some_attempt_succeeds sample_build (sample_env up_at_fourth) 0 10 = true.
Proof.
  assert (Hrun :
    ethernet_connect sample_build (sample_env up_at_fourth) (boot sample_build)
    = Ret 0 (advance (link_init_calls sample_build ++
                      loop_calls sample_build (sample_env up_at_fourth) 0 10) 4
                     (boot sample_build)))
    by (rewrite ethernet_connect_run; reflexivity).
  split; [exact Hrun|].
  exact (proj1 (proj2 (proj2 (proj2
           (ethernet_connect_result sample_build (sample_env up_at_fourth)
              (boot sample_build) 0 _ Hrun)))) eq_refl).
Defined.

Lemma ip_bytes (v4 : Z) :
  let b0 := uint8 v4 in
  let b1 := uint8 (Z.shiftr v4 8) in
  let b2 := uint8 (Z.shiftr v4 16) in
  let b3 := uint8 (Z.shiftr v4 24) in
  (0 <= b0 < 256 /\ 0 <= b1 < 256 /\ 0 <= b2 < 256 /\ 0 <= b3 < 256) /\
  b0 + 256 * b1 + 65536 * b2 + 16777216 * b3 = v4 mod 2 ^ 32.
Proof.
  cbv zeta. unfold uint8. rewrite !Z.shiftr_div_pow2 by lia.
  change (2 ^ 8) with 256. change (2 ^ 16) with 65536.
  change (2 ^ 24) with 16777216. change (2 ^ 32) with 4294967296.
  Z.div_mod_to_equations. lia.
Qed.

(** X4. When the link comes up at attempt [k], the last call of
    [ethernet_connect] prints the assigned address as four numbers in
    0..255, least significant byte first: together they are the low 32
    bits of the address [cy_ecm_connect] answered. *)
Theorem ethernet_connect_prints_address_bytes (B : build) (E : env) (w : world)
        (k : nat) :
  (k <= 9)%nat ->
  ecm_init_result E = CY_RSLT_SUCCESS B ->
  ethif_init_result E = CY_RSLT_SUCCESS B ->
  (forall j, (j < k)%nat ->
             ecm_connect_result E (ecm_connects w + j) <> CY_RSLT_SUCCESS B) ->
  ecm_connect_result E (ecm_connects w + k) = CY_RSLT_SUCCESS B ->
  exists b0 b1 b2 b3,
    ends_in (call_printf "IP Address Assigned: %d.%d.%d.%d\n"
                         [VInt b0; VInt b1; VInt b2; VInt b3])
            (trace (world_of (ethernet_connect B E w))) /\
    (0 <= b0 < 256 /\ 0 <= b1 < 256 /\ 0 <= b2 < 256 /\ 0 <= b3 < 256) /\
    b0 + 256 * b1 + 65536 * b2 + 16777216 * b3 =
    ecm_connect_ip E (ecm_connects w + k) mod 2 ^ 32.
Proof.
  intros Hk Hinit Hethif Hfail Hok.
  destruct (loop_first_success B E k 10 (ecm_connects w) (ethif_init_result E))
    as (Hc & Hn & Hx); [lia | exact Hfail | exact Hok |].
  destruct (ip_bytes (ecm_connect_ip E (ecm_connects w + k))) as [Hrange Hsum].
  do 4 eexists. split; [|split; [exact Hrange | exact Hsum]].
  rewrite ethernet_connect_run. unfold ethernet_connect_outcome.
  rewrite Hinit, Hethif, Z.eqb_refl. cbn [negb].
  change (Z.to_nat MAX_CONNECTION_RETRIES) with 10%nat.
  rewrite <- Hethif at 1. rewrite Hx, Hc.
  cbn [world_of trace advance]. unfold successful_attempt. ends.
Qed.

Lemma ethernet_connect_prints_address_bytes_witness :
  (3 <= 9)%nat /\
  ecm_init_result (sample_env up_at_fourth) = CY_RSLT_SUCCESS sample_build /\
  ethif_init_result (sample_env up_at_fourth) = CY_RSLT_SUCCESS sample_build /\
  (forall j, (j < 3)%nat ->
     ecm_connect_result (sample_env up_at_fourth)
                        (ecm_connects (boot sample_build) + j)
     <> CY_RSLT_SUCCESS sample_build) /\
  ecm_connect_result (sample_env up_at_fourth) (ecm_connects (boot sample_build) + 3)
    = CY_RSLT_SUCCESS sample_build /\
  exists b0 b1 b2 b3,
    ends_in (call_printf "IP Address Assigned: %d.%d.%d.%d\n"
                         [VInt b0; VInt b1; VInt b2; VInt b3])
            (trace (world_of (ethernet_connect sample_build (sample_env up_at_fourth)
                                               (boot sample_build)))) /\
    b0 + 256 * b1 + 65536 * b2 + 16777216 * b3 = 3232235786.
Proof.
  assert (H : forall j, (j < 3)%nat ->
     ecm_connect_result (sample_env up_at_fourth)
                        (ecm_connects (boot sample_build) + j)
     <> CY_RSLT_SUCCESS sample_build).
  { intros j Hj. cbn. unfold up_at_fourth.
    destruct (Nat.ltb_spec j 3); [discriminate | lia]. }
  assert (H3 : (3 <= 9)%nat) by lia.
  split; [exact H3|]. split; [reflexivity|]. split; [reflexivity|].
  split; [exact H|]. split; [reflexivity|].
  destruct (ethernet_connect_prints_address_bytes
              sample_build (sample_env up_at_fourth) (boot sample_build) 3
              H3 eq_refl eq_refl H eq_refl)
    as (b0 & b1 & b2 & b3 & Hend & _ & Hsum).
  exists b0, b1, b2, b3. split; [exact Hend | exact Hsum].
Defined.

(** ** More on the event logger *)

Lemma stateless_ret {A : Type} (a : A) : stateless (ret a : M A).
Proof.
  exists [], (Some a). split; [reflexivity|].
  intros w. rewrite advance_nil. reflexivity.
Qed.

Lemma stateless_bind {A C : Type} (m : M A) (k : A -> M C) :
  stateless m -> (forall a, stateless (k a)) -> stateless (bind m k).
Proof.
  intros (t1 & o1 & F1 & H1) Hk. destruct o1 as [a|].
  - destruct (Hk a) as (t2 & o2 & F2 & H2).
    exists (t1 ++ t2), o2. split; [rewrite forallb_app, F1, F2; reflexivity|].
    intros w. rewrite bind_run, H1, H2.
    destruct o2; rewrite advance_advance; reflexivity.
  - exists t1, None. split; [exact F1|].
    intros w. rewrite bind_run, H1. reflexivity.
Qed.

Lemma stateless_printf (fmt : string) (args : list value) :
  stateless (printf fmt args).
Proof.
  exists [call_printf fmt args],
         (if printf_defined fmt args then Some tt else None).
  split; [reflexivity|]. intros w. rewrite printf_cases.
  destruct (printf_defined fmt args); reflexivity.
Qed.

Lemma stateless_strlen (p : cptr) : stateless (strlen p).
Proof.
  exists [call_strlen p], (option_map Z.of_nat (c_strlen p)).
  split; [reflexivity|]. intros w. rewrite strlen_cases.
  destruct (c_strlen p); reflexivity.
Qed.

Lemma stateless_call_out {A : Type} (c : call) (a : A) :
  logger_call c = true -> stateless (call_out c a).
Proof.
  intros H. exists [c], (Some a). split; [cbn; rewrite H; reflexivity|].
  intros w. rewrite call_out_run. reflexivity.
Qed.

Ltac keeps_no_state :=
  repeat first
    [ apply stateless_ret
    | apply stateless_printf
    | apply stateless_strlen
    | apply stateless_call_out; reflexivity
    | apply stateless_bind; [|intro]
    | match goal with
      | |- stateless (if ?b then _ else _) => destruct b
      | |- stateless (match ?x with _ => _ end) => destruct x
      end ].

Lemma stateless_ota_callback (B : build) (E : env)
      (cb_data : option cy_ota_cb_struct_t) :
  stateless (ota_callback B E cb_data).
Proof.
  unfold ota_callback, job_connect_invalid, cy_ota_get_state_string,
    cy_ota_get_last_error, cy_ota_get_error_string, print_heap_usage.
  keeps_no_state.
Qed.

(** X5. [ota_callback] retains nothing across calls: the value it returns
    and the calls it adds are fixed by the event record and the lookups
    alone, the same from whatever world it is invoked. *)
Theorem ota_callback_retains_nothing (B : build) (E : env)
        (cb_data : option cy_ota_cb_struct_t) :
  exists tr,
    forall w1 w2,
      returned (ota_callback B E cb_data w1) = returned (ota_callback B E cb_data w2) /\
      stopped (ota_callback B E cb_data w1) = stopped (ota_callback B E cb_data w2) /\
      trace (world_of (ota_callback B E cb_data w1)) = trace w1 ++ tr /\
      trace (world_of (ota_callback B E cb_data w2)) = trace w2 ++ tr.
Proof.
  destruct (stateless_ota_callback B E cb_data) as (tr & o & _ & H).
  exists tr. intros w1 w2. rewrite (H w1), (H w2).
  destruct o; repeat split.
Qed.

(** X6. The logger is advisory: it never halts or parks the task and never
    asserts; it calls nothing but the lookups, the heap report, [strlen]
    and [printf], makes no connection attempt and leaves the globals alone.
    A run either returns or is undefined inside [strlen] or [printf]. *)
Theorem ota_callback_never_halts (B : build) (E : env)
        (cb_data : option cy_ota_cb_struct_t) (w : world) :
  let run := ota_callback B E cb_data w in
  exists tr,
    world_of run = advance tr 0 w /\
    forallb logger_call tr = true /\
    count is_assert tr = 0%nat /\
    (stopped run = None \/ stopped run = Some Undefined).
Proof.
  cbv zeta. destruct (stateless_ota_callback B E cb_data) as (tr & o & F & H).
  exists tr. rewrite (H w).
  assert (Hassert : forall l, forallb logger_call l = true -> count is_assert l = 0%nat).
  { induction l as [|c l IH]; [reflexivity|]. cbn [forallb]. intros Hc.
    apply andb_prop in Hc. destruct Hc as [Hc Hl].
    rewrite count_cons, (IH Hl). destruct c; try discriminate Hc; reflexivity. }
  destruct o; (split; [reflexivity|]); (split; [exact F|]);
    (split; [exact (Hassert tr F)|]); [left | right]; reflexivity.
Qed.

(** X7. For a reason other than a state change the inner switch is
    skipped: whatever the state and the string fields are (null ones
    included), the run is the opening calls and, for success and failure,
    one line with the state's number, its name and the last error's name,
    and the result is continue. *)
Theorem ota_callback_other_reasons (B : build) (E : env) (w : world)
        (cb : cy_ota_cb_struct_t) :
  reason cb <> CY_OTA_REASON_STATE_CHANGE ->
  ota_callback B E (Some cb) w =
  Ret CY_OTA_CB_RSLT_OTA_CONTINUE
      (advance (callback_prologue E (ota_agt_state cb) ++ reason_line B E cb) 0 w).
Proof.
  intros H. unfold ota_callback, reason_line. rewrite callback_prologue_run.
  destruct (reason cb).
  - contradiction H. reflexivity.
  - rewrite bind_run, printf_run by (apply reason_print_defined; auto).
    rewrite advance_advance. reflexivity.
  - rewrite bind_run, printf_run by (apply reason_print_defined; auto).
    rewrite advance_advance. reflexivity.
  - rewrite app_nil_r. reflexivity.
  - rewrite app_nil_r. reflexivity.
Qed.

Lemma ota_callback_other_reasons_witness :
  reason failure_report <> CY_OTA_REASON_STATE_CHANGE /\
  returned
    (ota_callback sample_build (sample_env never_up) (Some failure_report)
                  (boot sample_build))
  = Some CY_OTA_CB_RSLT_OTA_CONTINUE.
Proof.
  assert (H : reason failure_report <> CY_OTA_REASON_STATE_CHANGE)
    by (cbn; discriminate).
  split; [exact H|].
  rewrite (ota_callback_other_reasons sample_build (sample_env never_up)
             (boot sample_build) failure_report H).
  reflexivity.
Defined.

(** X8. Only the job-connect case validates the server.  The data-connect
    and result-connect cases format the host with [%s] with no test at
    all: they return continue for every port, zero included, exactly when
    the host is a string, and with a null host the run is undefined. *)
Theorem ota_callback_connect_states_unvalidated (B : build) (E : env) (w : world)
        (host f j : cptr) (p pct written total : Z) :
  let data :=
      ota_callback B E
        (Some (state_change CY_OTA_STATE_DATA_CONNECT host p f j pct written total)) w in
  let result :=
      ota_callback B E
        (Some (state_change CY_OTA_STATE_RESULT_CONNECT host p f j pct written total)) w in
  let data_calls :=
      callback_prologue E CY_OTA_STATE_DATA_CONNECT ++
      [call_printf "APP CB OTA CONNECT FOR DATA using " [];
       call_printf "HTTP: %s:%d \n" [VPtr host; VInt p]] in
  let result_calls :=
      callback_prologue E CY_OTA_STATE_RESULT_CONNECT ++
      [call_printf "APP CB OTA SEND RESULT CONNECT using " [];
       call_printf "HTTP: Server:%s port: %d\n" [VPtr host; VInt p]] in
  data = (if is_cstring host
          then Ret CY_OTA_CB_RSLT_OTA_CONTINUE (advance data_calls 0 w)
          else Stop Undefined (advance data_calls 0 w)) /\
  result = (if is_cstring host
            then Ret CY_OTA_CB_RSLT_OTA_CONTINUE (advance result_calls 0 w)
            else Stop Undefined (advance result_calls 0 w)) /\
  (host = NULL -> stopped data = Some Undefined /\ stopped result = Some Undefined).
Proof.
  cbv zeta.
  assert (Hd :
    ota_callback B E
      (Some (state_change CY_OTA_STATE_DATA_CONNECT host p f j pct written total)) w =
    (if is_cstring host
     then Ret CY_OTA_CB_RSLT_OTA_CONTINUE
              (advance (callback_prologue E CY_OTA_STATE_DATA_CONNECT ++
                        [call_printf "APP CB OTA CONNECT FOR DATA using " [];
                         call_printf "HTTP: %s:%d \n" [VPtr host; VInt p]]) 0 w)
     else Stop Undefined
              (advance (callback_prologue E CY_OTA_STATE_DATA_CONNECT ++
                        [call_printf "APP CB OTA CONNECT FOR DATA using " [];
                         call_printf "HTTP: %s:%d \n" [VPtr host; VInt p]]) 0 w))).
  { unfold ota_callback. rewrite callback_prologue_run.
    cbn [reason ota_agt_state state_change broker_server host_name port].
    rewrite bind_run, printf_run by reflexivity.
    rewrite bind_run, printf_cases.
    change (printf_defined _ _) with (is_cstring host && true).
    rewrite andb_true_r, !advance_advance, <- ?app_assoc.
    destruct (is_cstring host); reflexivity. }
  assert (Hr :
    ota_callback B E
      (Some (state_change CY_OTA_STATE_RESULT_CONNECT host p f j pct written total)) w =
    (if is_cstring host
     then Ret CY_OTA_CB_RSLT_OTA_CONTINUE
              (advance (callback_prologue E CY_OTA_STATE_RESULT_CONNECT ++
                        [call_printf "APP CB OTA SEND RESULT CONNECT using " [];
                         call_printf "HTTP: Server:%s port: %d\n" [VPtr host; VInt p]]) 0 w)
     else Stop Undefined
              (advance (callback_prologue E CY_OTA_STATE_RESULT_CONNECT ++
                        [call_printf "APP CB OTA SEND RESULT CONNECT using " [];
                         call_printf "HTTP: Server:%s port: %d\n" [VPtr host; VInt p]]) 0 w))).
  { unfold ota_callback. rewrite callback_prologue_run.
    cbn [reason ota_agt_state state_change broker_server host_name port].
    rewrite bind_run, printf_run by reflexivity.
    rewrite bind_run, printf_cases.
    change (printf_defined _ _) with (is_cstring host && true).
    rewrite andb_true_r, !advance_advance, <- ?app_assoc.
    destruct (is_cstring host); reflexivity. }
  split; [exact Hd|]. split; [exact Hr|].
  intros Hnull. rewrite Hd, Hr. subst host. split; reflexivity.
Qed.

(** X9. The job-download case formats [file] and the result-send case
    formats [json_doc] with [%s], again with no test: each returns continue
    exactly when that field is a string and is undefined otherwise; the
    other string fields of the record are not looked at. *)
Theorem ota_callback_download_and_send (B : build) (E : env) (w : world)
        (host f j : cptr) (p pct written total : Z) :
  let download :=
      ota_callback B E
        (Some (state_change CY_OTA_STATE_JOB_DOWNLOAD host p f j pct written total)) w in
  let send :=
      ota_callback B E
        (Some (state_change CY_OTA_STATE_RESULT_SEND host p f j pct written total)) w in
  let download_calls :=
      callback_prologue E CY_OTA_STATE_JOB_DOWNLOAD ++
      [call_printf "APP CB OTA JOB DOWNLOAD using " [];
       call_printf "HTTP: '%s'\n" [VPtr f]] in
  let send_calls :=
      callback_prologue E CY_OTA_STATE_RESULT_SEND ++
      [call_printf "APP CB OTA SENDING RESULT using " [];
       call_printf "HTTP: '%s' \n" [VPtr j]] in
  download = (if is_cstring f
              then Ret CY_OTA_CB_RSLT_OTA_CONTINUE (advance download_calls 0 w)
              else Stop Undefined (advance download_calls 0 w)) /\
  send = (if is_cstring j
          then Ret CY_OTA_CB_RSLT_OTA_CONTINUE (advance send_calls 0 w)
          else Stop Undefined (advance send_calls 0 w)).
Proof.
  cbv zeta. split.
  - unfold ota_callback. rewrite callback_prologue_run.
    cbn [reason ota_agt_state state_change file].
    rewrite bind_run, printf_run by reflexivity.
    rewrite bind_run, printf_cases.
    change (printf_defined _ _) with (is_cstring f && true).
    rewrite andb_true_r, !advance_advance, <- ?app_assoc.
    destruct (is_cstring f); reflexivity.
  - unfold ota_callback. rewrite callback_prologue_run.
    cbn [reason ota_agt_state state_change json_doc].
    rewrite bind_run, printf_run by reflexivity.
    rewrite bind_run, printf_cases.
    change (printf_defined _ _) with (is_cstring j && true).
    rewrite andb_true_r, !advance_advance, <- ?app_assoc.
    destruct (is_cstring j); reflexivity.
Qed.

(** X10. On a job-connect state change whose host and file are strings
    the logger always returns, and the result is decided by the port and
    the file alone: stop when the port is zero or the file is empty,
    continue otherwise. *)
Theorem job_connect_on_strings (B : build) (E : env) (w : world)
        (cb : cy_ota_cb_struct_t) :
  reason cb = CY_OTA_REASON_STATE_CHANGE ->
  ota_agt_state cb = CY_OTA_STATE_JOB_CONNECT ->
  is_cstring (host_name (broker_server cb)) = true ->
  is_cstring (file cb) = true ->
  returned (ota_callback B E (Some cb) w) =
  Some (if (port (broker_server cb) =? 0) ||
           match c_strlen (file cb) with Some O => true | _ => false end
        then CY_OTA_CB_RSLT_OTA_STOP
        else CY_OTA_CB_RSLT_OTA_CONTINUE).
Proof.
  intros Hr Hs Hh Hf.
  rewrite ota_callback_job_connect_run by assumption.
  unfold job_connect_outcome. rewrite Hh, Hf. cbn [andb].
  destruct (host_name (broker_server cb)); [|discriminate Hh].
  destruct (port (broker_server cb) =? 0); cbn [orb]; [reflexivity|].
  unfold is_cstring in Hf.
  destruct (c_strlen (file cb)) as [[|n]|]; [reflexivity | reflexivity | discriminate Hf].
Qed.

Lemma job_connect_on_strings_witness :
  reason (state_change CY_OTA_STATE_JOB_CONNECT (str "update.example.com") 443
                       (str "") NULL 0 0 0) = CY_OTA_REASON_STATE_CHANGE /\
  ota_agt_state (state_change CY_OTA_STATE_JOB_CONNECT (str "update.example.com") 443
                              (str "") NULL 0 0 0) = CY_OTA_STATE_JOB_CONNECT /\
  is_cstring (host_name (broker_server
     (state_change CY_OTA_STATE_JOB_CONNECT (str "update.example.com") 443
                   (str "") NULL 0 0 0))) = true /\
  is_cstring (file
     (state_change CY_OTA_STATE_JOB_CONNECT (str "update.example.com") 443
                   (str "") NULL 0 0 0)) = true /\
  returned
    (ota_callback sample_build (sample_env never_up)
       (Some (state_change CY_OTA_STATE_JOB_CONNECT (str "update.example.com") 443
                           (str "") NULL 0 0 0))
       (boot sample_build))
  = Some CY_OTA_CB_RSLT_OTA_STOP.
Proof.
  split; [reflexivity|]. split; [reflexivity|].
  split; [reflexivity|]. split; [reflexivity|].
  exact (job_connect_on_strings
           sample_build (sample_env never_up) (boot sample_build)
           (state_change CY_OTA_STATE_JOB_CONNECT (str "update.example.com") 443
                         (str "") NULL 0 0 0)
           eq_refl eq_refl eq_refl eq_refl).
Defined.

(** X11. In the job-connect case the stop result and the diagnostic line
    go together: a run that returns has printed the "ERROR in callback
    data" line exactly when it returns stop. *)
Theorem job_connect_error_line_iff_stop (B : build) (E : env) (w : world)
        (cb : cy_ota_cb_struct_t) (r : cy_ota_callback_results_t) (w' : world) :
  reason cb = CY_OTA_REASON_STATE_CHANGE ->
  ota_agt_state cb = CY_OTA_STATE_JOB_CONNECT ->
  ota_callback B E (Some cb) w = Ret r w' ->
  exists tr,
    trace w' = trace w ++ tr /\
    (In (error_print cb) tr <-> r = CY_OTA_CB_RSLT_OTA_STOP).
Proof.
  intros Hr Hs Hrun.
  rewrite ota_callback_job_connect_run in Hrun by assumption.
  unfold job_connect_outcome in Hrun.
  assert (Hyes : forall pre tr0,
    Ret CY_OTA_CB_RSLT_OTA_STOP
        (advance (pre ++ (tr0 ++ [error_print cb]) ++ [target_print cb]) 0 w)
    = Ret r w' ->
    exists tr, trace w' = trace w ++ tr /\
               (In (error_print cb) tr <-> r = CY_OTA_CB_RSLT_OTA_STOP)).
  { intros pre tr0 H. inversion H. eexists. split; [reflexivity|].
    split; [reflexivity|]. intros _.
    apply in_or_app. right. apply in_or_app. left.
    apply in_or_app. right. left. reflexivity. }
  destruct (is_cstring (host_name (broker_server cb)) && is_cstring (file cb)).
  2:{ destruct (host_name (broker_server cb)); [|discriminate Hrun].
      destruct (port (broker_server cb) =? 0); [discriminate Hrun|].
      destruct (c_strlen (file cb)) as [[|n]|]; discriminate Hrun. }
  destruct (host_name (broker_server cb)) as [hb|]; [|exact (Hyes _ [] Hrun)].
  destruct (port (broker_server cb) =? 0); [exact (Hyes _ [] Hrun)|].
  destruct (c_strlen (file cb)) as [[|n]|]; [ | |discriminate Hrun].
  - exact (Hyes _ [call_strlen (file cb)] Hrun).
  - inversion Hrun. eexists. split; [reflexivity|].
    split; [|discriminate].
    unfold callback_prologue, error_print, target_print. cbn [app In].
    intros H. repeat (destruct H as [H|H]; [discriminate H|]). contradiction.
Qed.

Lemma job_connect_error_line_iff_stop_witness :
  exists w',
    ota_callback sample_build (sample_env never_up)
      (Some (state_change CY_OTA_STATE_JOB_CONNECT (str "update.example.com") 0
                          (str "/job.json") NULL 0 0 0))
      (boot sample_build)
    = Ret CY_OTA_CB_RSLT_OTA_STOP w' /\
    exists tr,
      trace w' = trace (boot sample_build) ++ tr /\
      In (error_print
            (state_change CY_OTA_STATE_JOB_CONNECT (str "update.example.com") 0
                          (str "/job.json") NULL 0 0 0)) tr.
Proof.
  eexists. split.
  - rewrite ota_callback_job_connect_run by reflexivity. vm_compute. reflexivity.
  - match goal with
    | |- exists tr, trace ?w1 = _ /\ _ =>
      destruct (job_connect_error_line_iff_stop
                  sample_build (sample_env never_up) (boot sample_build)
                  (state_change CY_OTA_STATE_JOB_CONNECT (str "update.example.com") 0
                                (str "/job.json") NULL 0 0 0)
                  CY_OTA_CB_RSLT_OTA_STOP w1 eq_refl eq_refl)
        as (tr & Htr & Hin)
    end.
    + rewrite ota_callback_job_connect_run by reflexivity. vm_compute. reflexivity.
    + exists tr. split; [exact Htr | apply Hin; reflexivity].
Defined.

(** ** More on the task *)

(** [ethernet_connect] as a step of the task, with the calls counted. *)
Lemma ethernet_connect_step_census (B : build) (E : env) (w : world)
      (begun : list call) :
  exists tr1 n,
    ((ethernet_connect_outcome B E (advance begun 0 w) =
        Stop Halted (advance (begun ++ tr1) n w) /\
      (CY_RSLT_SUCCESS B =? ecm_init_result E) &&
      (CY_RSLT_SUCCESS B =? ethif_init_result E) = false) \/
     (exists r, ethernet_connect_outcome B E (advance begun 0 w) =
                  Ret r (advance (begun ++ tr1) n w) /\
                (CY_RSLT_SUCCESS B =? r) =
                (CY_RSLT_SUCCESS B =? ecm_init_result E) &&
                (CY_RSLT_SUCCESS B =? ethif_init_result E) &&
                some_attempt_succeeds B E (ecm_connects w) 10)) /\
    count is_connect tr1 = n /\
    (n <= 10)%nat /\
    count is_agent_start tr1 = 0%nat /\
    count is_network_init tr1 = 0%nat /\
    count is_image_validate tr1 = 0%nat.
Proof.
  unfold ethernet_connect_outcome.
  cbn [ecm_connects advance]. rewrite Nat.add_0_r.
  destruct (CY_RSLT_SUCCESS B =? ecm_init_result E) eqn:Hi; cbn [negb andb].
  2:{ rewrite advance_advance. eexists. exists 0%nat. split.
      - left. split; reflexivity.
      - repeat split; try reflexivity. lia. }
  destruct (CY_RSLT_SUCCESS B =? ethif_init_result E) eqn:He; cbn [negb andb].
  2:{ rewrite advance_advance. eexists. exists 0%nat. split.
      - left. split; reflexivity.
      - repeat split; try reflexivity. lia. }
  change (Z.to_nat MAX_CONNECTION_RETRIES) with 10%nat.
  destruct (loop_calls_census B E 10 (ecm_connects w))
    as (H1 & H2 & _ & _ & _ & H6 & H7 & H8).
  assert (L1 : count is_connect (link_init_calls B) = 0%nat) by reflexivity.
  assert (L6 : count is_agent_start (link_init_calls B) = 0%nat) by reflexivity.
  assert (L7 : count is_network_init (link_init_calls B) = 0%nat) by reflexivity.
  assert (L8 : count is_image_validate (link_init_calls B) = 0%nat) by reflexivity.
  destruct (loop_exit B E (ecm_connects w) 10 (ethif_init_result E))
    as [r|r] eqn:Hx.
  - destruct (loop_exit_inl B E _ _ _ _ Hx) as [Hr Hsome].
    rewrite advance_advance. eexists. eexists. split.
    + right. exists r. split; [reflexivity|].
      rewrite Hsome, Hr. apply Z.eqb_refl.
    + rewrite !count_app, H1, H6, H7, H8, L1, L6, L7, L8.
      repeat split; try reflexivity. exact H2.
  - destruct (loop_exit_inr B E _ _ _ _ Hx) as [Hnone Hr].
    rewrite advance_advance. eexists. eexists. split.
    + right. exists r. split; [reflexivity|].
      rewrite Hnone. apply Hr. right. discriminate.
    + rewrite !count_app, H1, H6, H7, H8, L1, L6, L7, L8.
      change (count is_connect [_]) with 0%nat.
      rewrite !Nat.add_0_r. repeat split; try reflexivity. exact H2.
Qed.

(** Settles one way through [ota_task], counting its calls. *)
Ltac settle_census :=
  rewrite ?advance_advance;
  unfold launch_reached, step_succeeds;
  use_answers;
  cbn [andb orb negb];
  eexists; eexists;
  split; [cbn [world_of trace advance store_context]; reflexivity|];
  split; [cbn [world_of ecm_connects advance store_context]; reflexivity|];
  rewrite ?count_app, ?count_cons, ?count_app;
  use_facts;
  cbn [is_connect is_agent_start is_network_init is_image_validate
       agent_start_call Nat.add];
  rewrite ?count_cons;
  cbn [is_connect is_agent_start is_network_init is_image_validate
       agent_start_call Nat.add];
  try change (count is_connect []) with 0%nat;
  try change (count is_agent_start []) with 0%nat;
  try change (count is_network_init []) with 0%nat;
  try change (count is_image_validate []) with 0%nat;
  repeat split; lia.

Lemma ota_task_census (B : build) (E : env) (w : world) :
  exists tr n,
    trace (world_of (ota_task B E w)) = trace w ++ tr /\
    ecm_connects (world_of (ota_task B E w)) = (ecm_connects w + n)%nat /\
    count is_connect tr = n /\
    (n <= 10)%nat /\
    count is_agent_start tr =
      (if launch_reached B E (ecm_connects w) then 1%nat else 0%nat) /\
    count is_image_validate tr =
      (if TEST_REVERT B then 0%nat
       else if CY_RSLT_SUCCESS B =? storage_init_result E then 1%nat else 0%nat) /\
    (count is_network_init tr <= 1)%nat.
Proof.
  rewrite ota_task_run. unfold ota_task_outcome.
  destruct (CY_RSLT_SUCCESS B =? storage_init_result E) eqn:H1; cbn [negb].
  2:{ destruct (TEST_REVERT B) eqn:HT; settle_census. }
  destruct (TEST_REVERT B) eqn:HT; cbn [negb andb].
  - destruct (ethernet_connect_step_census B E w [call_cy_ota_storage_init])
      as (tr1 & n & [(Hrun & Hinit)|(r & Hrun & Hr)] & Hc & Hn & Ha & Hni & Hv);
      rewrite Hrun; [settle_census|].
    destruct (CY_RSLT_SUCCESS B =? r) eqn:Hrr; symmetry in Hr; cbn [negb];
      [|settle_census].
    destruct (CY_RSLT_SUCCESS B =? network_init_result E) eqn:H4; cbn [negb];
      [|settle_census].
    destruct (CY_RSLT_SUCCESS B =? agent_start_result E) eqn:H5; cbn [negb];
      settle_census.
  - destruct (CY_RSLT_SUCCESS B =? image_validate_result E APP_ID) eqn:H2;
      cbn [negb]; [|settle_census].
    destruct (ethernet_connect_step_census B E w
                [call_cy_ota_storage_init; call_cy_ota_storage_image_validate APP_ID])
      as (tr1 & n & [(Hrun & Hinit)|(r & Hrun & Hr)] & Hc & Hn & Ha & Hni & Hv);
      rewrite Hrun; [settle_census|].
    destruct (CY_RSLT_SUCCESS B =? r) eqn:Hrr; symmetry in Hr; cbn [negb];
      [|settle_census].
    destruct (CY_RSLT_SUCCESS B =? network_init_result E) eqn:H4; cbn [negb];
      [|settle_census].
    destruct (CY_RSLT_SUCCESS B =? agent_start_result E) eqn:H5; cbn [negb];
      settle_census.
Qed.

(** X12. [ota_task] starts the agent at most once, and exactly when every
    earlier step has succeeded (storage, validation unless compiled out,
    link, secure sockets); a run makes at most ten connection attempts and
    initialises the secure sockets at most once. *)
Theorem ota_task_launches_once_when_ready (B : build) (E : env) (w : world) :
  exists tr,
    trace (world_of (ota_task B E w)) = trace w ++ tr /\
    count is_agent_start tr =
      (if launch_reached B E (ecm_connects w) then 1%nat else 0%nat) /\
    (count is_connect tr <= 10)%nat /\
    (count is_network_init tr <= 1)%nat.
Proof.
  destruct (ota_task_census B E w) as (tr & n & Ht & _ & Hc & Hn & Ha & _ & Hi).
  exists tr. rewrite Hc. repeat split; assumption.
Qed.

(** X13. The post-revert validation is called once when [TEST_REVERT] is
    not defined and the storage initialised, and never otherwise: with
    [TEST_REVERT] defined no run of [ota_task] validates the image. *)
Theorem ota_task_validation_compiled_out (B : build) (E : env) (w : world) :
  exists tr,
    trace (world_of (ota_task B E w)) = trace w ++ tr /\
    count is_image_validate tr =
      (if TEST_REVERT B then 0%nat
       else if CY_RSLT_SUCCESS B =? storage_init_result E then 1%nat else 0%nat).
Proof.
  destruct (ota_task_census B E w) as (tr & n & Ht & _ & _ & _ & _ & Hv & _).
  exists tr. split; assumption.
Qed.

(** X14. Exhausted retries are fatal to the caller: when the steps before
    the link succeed, both initialisations succeed and all ten attempts
    fail, [ota_task] halts right after the ten attempts with the "Failed
    to connect" message; the secure sockets and the agent are never
    started and the globals are as before. *)
Theorem ota_task_halts_when_link_stays_down (B : build) (E : env) (w : world) :
  storage_init_result E = CY_RSLT_SUCCESS B ->
  TEST_REVERT B = true \/ image_validate_result E APP_ID = CY_RSLT_SUCCESS B ->
  ecm_init_result E = CY_RSLT_SUCCESS B ->
  ethif_init_result E = CY_RSLT_SUCCESS B ->
  (forall k, (k < 10)%nat ->
             ecm_connect_result E (ecm_connects w + k) <> CY_RSLT_SUCCESS B) ->
  let begun :=
      call_cy_ota_storage_init ::
      (if TEST_REVERT B then [] else [call_cy_ota_storage_image_validate APP_ID]) in
  ota_task B E w =
  Stop Halted
       (advance (begun ++ link_init_calls B ++
                 failed_attempts B E (ecm_connects w) 10 ++
                 [call_printf "Exceeded maximum Ethernet connection attempts\n" [];
                  call_printf "\n Failed to connect to Ethernet.\n" [];
                  call_CY_ASSERT 0]) 10 w).
Proof.
  intros Hs Hv Hi He Hfail begun.
  destruct (loop_all_fail B E 10 (ecm_connects w) (CY_RSLT_SUCCESS B))
    as (Hc & Hn & Hx).
  { exact Hfail. }
  assert (Hlast : (CY_RSLT_SUCCESS B =? ecm_connect_result E (ecm_connects w + 9)) = false).
  { apply Z.eqb_neq. intro Heq. apply (Hfail 9%nat); [lia | symmetry; exact Heq]. }
  rewrite ota_task_run. unfold ota_task_outcome.
  rewrite Hs, Z.eqb_refl. cbn [negb].
  assert (Hgate : negb (TEST_REVERT B) &&
                  negb (CY_RSLT_SUCCESS B =? image_validate_result E APP_ID) = false).
  { destruct Hv as [Hv|Hv]; rewrite Hv; [reflexivity|].
    rewrite Z.eqb_refl. apply andb_false_r. }
  rewrite Hgate. fold begun.
  unfold ethernet_connect_outcome. rewrite Hi, He, Z.eqb_refl. cbn [negb].
  cbn [ecm_connects advance]. rewrite Nat.add_0_r.
  change (Z.to_nat MAX_CONNECTION_RETRIES) with 10%nat.
  rewrite Hx, Hc, Hn, Hlast. cbn [negb].
  rewrite !advance_advance. cbn [app Nat.add].
  rewrite <- !app_assoc. reflexivity.
Qed.

Lemma ota_task_halts_when_link_stays_down_witness :
  storage_init_result (sample_env never_up) = CY_RSLT_SUCCESS sample_build /\
  (TEST_REVERT sample_build = true \/
   image_validate_result (sample_env never_up) APP_ID = CY_RSLT_SUCCESS sample_build) /\
  ecm_init_result (sample_env never_up) = CY_RSLT_SUCCESS sample_build /\
  ethif_init_result (sample_env never_up) = CY_RSLT_SUCCESS sample_build /\
  (forall k, (k < 10)%nat ->
     ecm_connect_result (sample_env never_up) (ecm_connects (boot sample_build) + k)
     <> CY_RSLT_SUCCESS sample_build) /\
  stopped (ota_task sample_build (sample_env never_up) (boot sample_build))
    = Some Halted.
Proof.
  assert (H : forall k, (k < 10)%nat ->
     ecm_connect_result (sample_env never_up) (ecm_connects (boot sample_build) + k)
     <> CY_RSLT_SUCCESS sample_build)
    by (intros k _; discriminate).
  split; [reflexivity|]. split; [right; reflexivity|].
  split; [reflexivity|]. split; [reflexivity|]. split; [exact H|].
  rewrite (ota_task_halts_when_link_stays_down
             sample_build (sample_env never_up) (boot sample_build)
             eq_refl (or_intror eq_refl) eq_refl eq_refl H).
  reflexivity.
Defined.

(** ** The logger after the launch *)

Lemma ota_callback_world (B : build) (E : env)
      (cb_data : option cy_ota_cb_struct_t) (w : world) :
  exists tr, world_of (ota_callback B E cb_data w) = advance tr 0 w.
Proof.
  destruct (stateless_ota_callback B E cb_data) as (tr & o & _ & H).
  exists tr. rewrite (H w). destruct o; reflexivity.
Qed.

Lemma deliver_keeps (B : build) (E : env)
      (events : list (option cy_ota_cb_struct_t)) :
  forall w,
    mem (deliver B E events w) = mem w /\
    writes (deliver B E events w) = writes w /\
    ecm_connects (deliver B E events w) = ecm_connects w.
Proof.
  induction events as [|ev events IH]; intros w; [repeat split|].
  cbn [deliver]. destruct (ota_callback_world B E ev w) as [tr Hw].
  rewrite Hw. destruct (IH (advance tr 0 w)) as (H1 & H2 & H3).
  rewrite H1, H2, H3. cbn [mem writes ecm_connects advance].
  rewrite Nat.add_0_r. repeat split.
Qed.

Lemma ota_task_parked (B : build) (E : env) (w w' : world) :
  ota_task B E w = Stop Suspended w' ->
  exists tr n,
    w' = store_context g_ota_context (agent_start_handle E) (advance tr n w).
Proof.
  rewrite ota_task_run. unfold ota_task_outcome.
  destruct (negb (CY_RSLT_SUCCESS B =? storage_init_result E)); [discriminate|].
  destruct (negb (TEST_REVERT B) && _); [discriminate|].
  destruct (ethernet_connect_as_step B E w
              (call_cy_ota_storage_init ::
               (if TEST_REVERT B then []
                else [call_cy_ota_storage_image_validate APP_ID])))
    as (tr1 & n & [(Hrun & _)|(r & Hrun & _)] & _);
    rewrite Hrun; [discriminate|].
  destruct (negb (CY_RSLT_SUCCESS B =? r)); [discriminate|].
  destruct (negb (CY_RSLT_SUCCESS B =? network_init_result E)); [discriminate|].
  destruct (negb (CY_RSLT_SUCCESS B =? agent_start_result E)); [discriminate|].
  intros H. inversion H. rewrite advance_advance. eexists. eexists. reflexivity.
Qed.

(** X15. Once [ota_task] has parked, however many events the agent
    delivers to [ota_callback] and whatever they hold, the session handle
    stays the one the launch stored, the configuration stays as it was
    before the task ran, no further store is made and no connection
    attempt is added. *)
Theorem handle_survives_every_callback (B : build) (E : env) (w w' : world)
        (events : list (option cy_ota_cb_struct_t)) :
  ota_task B E w = Stop Suspended w' ->
  ota_context (mem (deliver B E events w')) = agent_start_handle E /\
  config (deliver B E events w') = config w /\
  writes (deliver B E events w') = writes w ++ [g_ota_context] /\
  ecm_connects (deliver B E events w') = ecm_connects w'.
Proof.
  intros Hpark. destruct (ota_task_parked B E w w' Hpark) as (tr & n & Hw').
  destruct (deliver_keeps B E events w') as (H1 & H2 & H3).
  unfold config. rewrite H1, H2, H3, Hw'. repeat split.
Qed.

Lemma handle_survives_every_callback_witness :
  exists w',
    ota_task sample_build (sample_env up_at_fourth) (boot sample_build)
      = Stop Suspended w' /\
    ota_context
      (mem (deliver sample_build (sample_env up_at_fourth)
                    [Some failure_report; None;
                     Some (state_change CY_OTA_STATE_STORAGE_WRITE NULL 0 NULL NULL 5 5 100)]
                    w'))
    = 4096.
Proof.
  eexists. split.
  - rewrite ota_task_run. vm_compute. reflexivity.
  - match goal with
    | |- ota_context (mem (deliver _ _ ?evs ?w1)) = _ =>
      assert (Hrun : ota_task sample_build (sample_env up_at_fourth) (boot sample_build)
                     = Stop Suspended w1)
        by (rewrite ota_task_run; vm_compute; reflexivity);
      exact (proj1 (handle_survives_every_callback
                      sample_build (sample_env up_at_fourth) (boot sample_build) w1
                      evs Hrun))
    end.
Defined.

(** ** The logger's result, over a [printf] that returns *)












(** ** The stores of the task *)

(** Settles one way through [ota_task], for its stores and its launch. *)
Ltac settle_stores :=
  rewrite ?advance_advance;
  unfold agent_launched, launch_reached, step_succeeds;
  use_answers;
  cbn [andb orb negb];
  eexists;
  split; [cbn [world_of trace advance store_context]; reflexivity|];
  split; [reflexivity|];
  split; [cbn [world_of mem writes advance store_context ota_context];
          rewrite ?app_nil_r; reflexivity|];
  split; [cbn [world_of mem writes advance store_context ota_context];
          rewrite ?app_nil_r; reflexivity|];
  split;
  [ rewrite ?count_app, ?count_cons, ?count_app;
    use_facts;
    cbn [is_agent_start agent_start_call Nat.add];
    rewrite ?count_cons;
    cbn [is_agent_start agent_start_call Nat.add];
    try change (count is_agent_start []) with 0%nat;
    lia
  | first
      [ discriminate
      | intros _; split; [reflexivity|];
        repeat first [ apply last_two_here | apply last_two_cons | apply last_two_app ] ] ].

(** Every way through [ota_task]: the configuration is kept, the handle is
    stored when and only when the agent is launched, and the launch is the
    last call before the task parks. *)
Lemma ota_task_stores (B : build) (E : env) (w : world) :
  exists tr,
    trace (world_of (ota_task B E w)) = trace w ++ tr /\
    config (world_of (ota_task B E w)) = config w /\
    writes (world_of (ota_task B E w)) =
      writes w ++ (if agent_launched B E (ecm_connects w) then [g_ota_context] else []) /\
    ota_context (mem (world_of (ota_task B E w))) =
      (if agent_launched B E (ecm_connects w)
       then agent_start_handle E else ota_context (mem w)) /\
    count is_agent_start tr =
      (if launch_reached B E (ecm_connects w) then 1%nat else 0%nat) /\
    (agent_launched B E (ecm_connects w) = true ->
     stopped (ota_task B E w) = Some Suspended /\
     exists tr0, tr = tr0 ++ [agent_start_call; call_vTaskSuspend_NULL]).
Proof.
  rewrite ota_task_run. unfold ota_task_outcome.
  destruct (CY_RSLT_SUCCESS B =? storage_init_result E) eqn:H1; cbn [negb].
  2:{ destruct (TEST_REVERT B) eqn:HT; settle_stores. }
  destruct (TEST_REVERT B) eqn:HT; cbn [negb andb].
  - destruct (ethernet_connect_step_census B E w [call_cy_ota_storage_init])
      as (tr1 & n & [(Hrun & Hinit)|(r & Hrun & Hr)] & Hc & Hn & Ha & Hni & Hv);
      rewrite Hrun; [settle_stores|].
    destruct (CY_RSLT_SUCCESS B =? r) eqn:Hrr; symmetry in Hr; cbn [negb];
      [|settle_stores].
    destruct (CY_RSLT_SUCCESS B =? network_init_result E) eqn:H4; cbn [negb];
      [|settle_stores].
    destruct (CY_RSLT_SUCCESS B =? agent_start_result E) eqn:H5; cbn [negb];
      settle_stores.
  - destruct (CY_RSLT_SUCCESS B =? image_validate_result E APP_ID) eqn:H2;
      cbn [negb]; [|settle_stores].
    destruct (ethernet_connect_step_census B E w
                [call_cy_ota_storage_init; call_cy_ota_storage_image_validate APP_ID])
      as (tr1 & n & [(Hrun & Hinit)|(r & Hrun & Hr)] & Hc & Hn & Ha & Hni & Hv);
      rewrite Hrun; [settle_stores|].
    destruct (CY_RSLT_SUCCESS B =? r) eqn:Hrr; symmetry in Hr; cbn [negb];
      [|settle_stores].
    destruct (CY_RSLT_SUCCESS B =? network_init_result E) eqn:H4; cbn [negb];
      [|settle_stores].
    destruct (CY_RSLT_SUCCESS B =? agent_start_result E) eqn:H5; cbn [negb];
      settle_stores.
Qed.

(** C10. No function of the file changes [ota_network_params],
    [ota_agent_params] or [ota_interfaces]; [ethernet_connect] and
    [ota_callback] store to no global at all.  In every run of [ota_task]
    the only store is the one the call of [cy_ota_agent_start] makes to
    [ota_context]: the run calls it once when every earlier step succeeded
    and never otherwise, the handle is stored once when that call succeeds
    and nothing is stored otherwise, and after a successful launch the one
    remaining call is [vTaskSuspend(NULL)], which parks the task. *)
Theorem globals_stored_only_by_agent_start (B : build) (E : env) (w : world)
        (cb_data : option cy_ota_cb_struct_t) :
  config (world_of (ethernet_connect B E w)) = config w /\
  config (world_of (ota_callback B E cb_data w)) = config w /\
  keeps_globals (ethernet_connect B E) /\
  keeps_globals (ota_callback B E cb_data) /\
  exists tr,
    trace (world_of (ota_task B E w)) = trace w ++ tr /\
    config (world_of (ota_task B E w)) = config w /\
    writes (world_of (ota_task B E w)) =
      writes w ++ (if agent_launched B E (ecm_connects w) then [g_ota_context] else []) /\
    ota_context (mem (world_of (ota_task B E w))) =
      (if agent_launched B E (ecm_connects w)
       then agent_start_handle E else ota_context (mem w)) /\
    count is_agent_start tr =
      (if launch_reached B E (ecm_connects w) then 1%nat else 0%nat) /\
    (agent_launched B E (ecm_connects w) = true ->
     stopped (ota_task B E w) = Some Suspended /\
     exists tr0, tr = tr0 ++ [agent_start_call; call_vTaskSuspend_NULL]).
Proof.
  split; [apply keeps_globals_config, keeps_globals_ethernet_connect|].
  split; [apply keeps_globals_config, keeps_globals_ota_callback|].
  split; [apply keeps_globals_ethernet_connect|].
  split; [apply keeps_globals_ota_callback|].
  exact (ota_task_stores B E w).
Qed.

Lemma globals_stored_only_by_agent_start_witness :
  agent_launched sample_build (sample_env up_at_fourth)
                 (ecm_connects (boot sample_build)) = true /\
  stopped (ota_task sample_build (sample_env up_at_fourth) (boot sample_build))
    = Some Suspended /\
  writes (world_of (ota_task sample_build (sample_env up_at_fourth) (boot sample_build)))
    = [g_ota_context] /\
  ota_context
    (mem (world_of (ota_task sample_build (sample_env up_at_fourth) (boot sample_build))))
    = 4096.
Proof.
  assert (Hl : agent_launched sample_build (sample_env up_at_fourth)
                              (ecm_connects (boot sample_build)) = true)
    by (vm_compute; reflexivity).
  destruct (globals_stored_only_by_agent_start
              sample_build (sample_env up_at_fourth) (boot sample_build) None)
    as (_ & _ & _ & _ & tr & _ & _ & Hw & Hc & _ & Hp).
  rewrite Hl in Hw, Hc.
  split; [exact Hl|]. split; [exact (proj1 (Hp Hl))|].
  split; [exact Hw | exact Hc].
Defined.
